(** * Meditrail OCR client (src/ocr/python/ocr_client.py)

    A shallow embedding of [MeditrailOCRClient]: the constructor and
    [process_document], with the file system, the table of open file
    handles and the HTTP transport made explicit.  Python exceptions are
    values of [pyexn]; a call either returns a value or raises, and in both
    cases hands back the state it leaves behind. *)

From stdpp Require Import gmap strings list fin_maps pretty.
From Stdlib Require Import ZArith Ascii String.

Local Open Scope string_scope.
Local Open Scope Z_scope.

(** ** Python values that come out of [response.json()] *)

(** A parsed JSON document, as Python's [json] module builds it: [None],
    [bool], [int], [float] (kept as its IEEE-754 binary64 bit pattern),
    [str], [list] and [dict] with string keys. *)
#[warnings="-register-all"]
Inductive json : Type :=
  | JNull
  | JBool (b : bool)
  | JInt (n : Z)
  | JFloat (bits : Z)
  | JString (s : string)
  | JArray (xs : list json)
  | JObject (m : gmap string json).

(** [type(v).__name__], as it appears in CPython's [AttributeError] text. *)
Definition type_name (v : json) : string :=
  match v with
  | JNull => "NoneType"
  | JBool _ => "bool"
  | JInt _ => "int"
  | JFloat _ => "float"
  | JString _ => "str"
  | JArray _ => "list"
  | JObject _ => "dict"
  end.

(** [isinstance(v, dict)] *)
Definition isinstance_dict (v : json) : bool :=
  match v with JObject _ => true | _ => false end.

(** ** Strings

    Python [str] values are kept as Rocq strings of UTF-8 bytes.  The only
    character the client looks for is ['/'], a single byte that never occurs
    inside a multi-byte sequence, so [rstrip], [rfind] and slicing agree
    with Python's on code points. *)

(** [s.rstrip(c)] for a one-character argument: drop every trailing [c]. *)
Fixpoint rstrip (c : ascii) (s : string) : string :=
  match s with
  | EmptyString => EmptyString
  | String a r =>
      match rstrip c r with
      | EmptyString => if Ascii.eqb a c then EmptyString else String a EmptyString
      | r' => String a r'
      end
  end.

(** [s.rfind(c)]: index of the last [c], or [-1]. *)
Fixpoint rfind (c : ascii) (s : string) : Z :=
  match s with
  | EmptyString => -1
  | String a r =>
      let i := rfind c r in
      if 0 <=? i then i + 1 else if Ascii.eqb a c then 0 else -1
  end.

(** [s[i:]] for [i >= 0]. *)
Fixpoint slice_from (i : nat) (s : string) : string :=
  match i, s with
  | O, _ => s
  | S _, EmptyString => EmptyString
  | S i', String _ r => slice_from i' r
  end.

(** [os.path.basename] (posixpath): [i = p.rfind('/') + 1; return p[i:]]. *)
Definition basename (p : string) : string :=
  let i := rfind "/" p + 1 in
  slice_from (Z.to_nat i) p.

(** [s.startswith(p)] *)
Definition startswith (s p : string) : bool := String.prefix p s.

(** *** [f"{file_size / (1024*1024):.2f}"]

    [int / int] is Python's true division: the quotient rounded to the
    nearest binary64, ties to even.  Dividing by [2^20] only moves the
    exponent, so the float is [round_to_double file_size / 2^20] exactly
    (file sizes are far below the overflow threshold).  Format [.2f] then
    prints that float correctly rounded to two decimals, ties to even. *)

(** The integer nearest to [n / d], ties to even ([0 <= n], [0 < d]). *)
Definition round_half_even (n d : Z) : Z :=
  let q := n / d in
  let r := n mod d in
  if 2 * r <? d then q
  else if d <? 2 * r then q + 1
  else if Z.even q then q else q + 1.

(** [float(n)] for an integer [0 <= n]: 53 significant bits are kept. *)
Definition round_to_double (n : Z) : Z :=
  let e := Z.log2 n - 52 in
  if e <=? 0 then n else round_half_even n (2 ^ e) * 2 ^ e.

Definition two_digits (k : Z) : string :=
  if k <? 10 then "0" ++ pretty k else pretty k.

(** [f"{num / den:.2f}"] for the float with exact value [num / den]. *)
Definition format_2f (num den : Z) : string :=
  let h := round_half_even (100 * num) den in
  pretty (h / 100) ++ "." ++ two_digits (h mod 100).

Definition format_megabytes (file_size : Z) : string :=
  format_2f (round_to_double file_size) (1024 * 1024).


(** ** HTTP responses and exceptions *)

(** What [response.json()] finds in the body. *)
Inductive body : Type :=
  | Json (j : json)           (* the body parses; [j] is the parsed value *)
  | NotJson (err : string).   (* it does not; [err] is the decoder's text *)

Module Response.
(** The attributes of [requests.Response] the client and
    [raise_for_status] read. *)
Record t : Type := mk {
  status_code : Z;
  reason : string;
  url : string;
  content : body;
}.
End Response.

(** The exception classes that can reach [process_document]: built-in
    ones and those of [requests.exceptions]. *)
Inductive exn_class : Type :=
  | Exception
  | OSError
  | FileNotFoundError
  | PermissionError
  | IsADirectoryError
  | ValueError
  | AttributeError
  | JSONDecodeError              (* json.JSONDecodeError *)
  | RequestException
  | InvalidJSONError
  | RequestsJSONDecodeError      (* requests.exceptions.JSONDecodeError *)
  | HTTPError
  | ConnectionError              (* requests.exceptions.ConnectionError *)
  | ProxyError
  | SSLError
  | Timeout                      (* requests.exceptions.Timeout *)
  | ConnectTimeout
  | ReadTimeout
  | TooManyRedirects
  | MissingSchema
  | InvalidURL
  | ChunkedEncodingError.

#[global] Instance exn_class_eq_dec : EqDecision exn_class.
Proof. solve_decision. Defined.

(** The classes a class derives from, itself included (its MRO without
    [BaseException] and [object]). [requests.RequestException] derives from
    [IOError], which is [OSError]. *)
Definition mro (c : exn_class) : list exn_class :=
  match c with
  | Exception => [Exception]
  | OSError => [OSError; Exception]
  | FileNotFoundError => [FileNotFoundError; OSError; Exception]
  | PermissionError => [PermissionError; OSError; Exception]
  | IsADirectoryError => [IsADirectoryError; OSError; Exception]
  | ValueError => [ValueError; Exception]
  | AttributeError => [AttributeError; Exception]
  | JSONDecodeError => [JSONDecodeError; ValueError; Exception]
  | RequestException => [RequestException; OSError; Exception]
  | InvalidJSONError => [InvalidJSONError; RequestException; OSError; Exception]
  | RequestsJSONDecodeError =>
      [RequestsJSONDecodeError; InvalidJSONError; RequestException; OSError;
       JSONDecodeError; ValueError; Exception]
  | HTTPError => [HTTPError; RequestException; OSError; Exception]
  | ConnectionError => [ConnectionError; RequestException; OSError; Exception]
  | ProxyError => [ProxyError; ConnectionError; RequestException; OSError; Exception]
  | SSLError => [SSLError; ConnectionError; RequestException; OSError; Exception]
  | Timeout => [Timeout; RequestException; OSError; Exception]
  | ConnectTimeout =>
      [ConnectTimeout; ConnectionError; Timeout; RequestException; OSError;
       Exception]
  | ReadTimeout => [ReadTimeout; Timeout; RequestException; OSError; Exception]
  | TooManyRedirects => [TooManyRedirects; RequestException; OSError; Exception]
  | MissingSchema =>
      [MissingSchema; RequestException; OSError; ValueError; Exception]
  | InvalidURL => [InvalidURL; RequestException; OSError; ValueError; Exception]
  | ChunkedEncodingError =>
      [ChunkedEncodingError; RequestException; OSError; Exception]
  end.

Definition issubclass (c d : exn_class) : bool := bool_decide (d ∈ mro c).

(** An exception instance: its class, [str(e)], and the [response]
    attribute that [requests] sets on an [HTTPError]. *)
Record pyexn : Type := Exn {
  exn_class_of : exn_class;
  exn_msg : string;
  exn_response : option Response.t;
}.

(** [raise C(msg)] at the raise sites of the client *)
Definition new_exn (c : exn_class) (msg : string) : pyexn := Exn c msg None.

(** ** The outside world *)

(** An open file object ([f.name], [f.mode], [f.closed]); a handle is its
    index in the table of file objects created so far. *)
Record FileObject : Type := {
  name : string;
  mode : string;
  closed : bool;
}.

Module Request.
(** One call of [requests.post(url, headers=, files=, data=, timeout=)]. *)
Record t : Type := mk {
  method : string;
  url : string;
  headers : gmap string string;
  files : gmap string (string * nat);   (* field ↦ (filename, handle) *)
  data : gmap string string;
  timeout : Z;
}.
End Request.

(** What the transport does with a request: it answers, or [requests]
    raises. *)
Inductive PostResult : Type :=
  | Responded (r : Response.t)
  | Failed (e : pyexn).

(** A directory entry as the client sees it: [os.path.getsize] and whether
    [open(path, 'rb')] goes through (it raises [PermissionError],
    [IsADirectoryError], ... otherwise). *)
Record FileStat : Type := {
  st_size : Z;
  open_error : option pyexn;
}.

Record Env : Type := {
  fs : gmap string FileStat;
  transport : Request.t → PostResult;
}.

(** The part of the world a call changes: the file objects it created and
    the requests it put on the wire, oldest first. *)
Record State : Type := {
  handles : list FileObject;
  sent : list Request.t;
}.

(** ** Computations that may raise *)

Inductive result (A : Type) : Type :=
  | Return (a : A)
  | Raise (e : pyexn).
Arguments Return {A} a.
Arguments Raise {A} e.

Definition M (A : Type) : Type := State → result A * State.

#[global] Instance M_ret : MRet M := fun A a σ => (Return a, σ).

#[global] Instance M_bind : MBind M := fun A B k c σ =>
  match c σ with
  | (Return a, σ') => k a σ'
  | (Raise e, σ') => (Raise e, σ')
  end.

Definition raise {A} (e : pyexn) : M A := fun σ => (Raise e, σ).

(** [except C: h] clauses, tried in order; the first whose class the
    exception is an instance of handles it. *)
Fixpoint find_handler {A} (hs : list (exn_class * M A)) (e : pyexn) : option (M A) :=
  match hs with
  | [] => None
  | (c, h) :: hs' =>
      if issubclass (exn_class_of e) c then Some h else find_handler hs' e
  end.

(** [try: body  except ...: ...  finally: fin].  An exception raised by a
    handler is not handled again; [fin] runs on every way out and, when it
    does not raise itself, leaves the outcome as it was. *)
Definition try_except_finally {A} (body : M A) (hs : list (exn_class * M A))
    (fin : M unit) : M A := fun σ =>
  let '(r, σ1) :=
    match body σ with
    | (Return a, σ') => (Return a, σ')
    | (Raise e, σ') =>
        match find_handler hs e with
        | Some h => h σ'
        | None => (Raise e, σ')
        end
    end in
  match fin σ1 with
  | (Return _, σ2) => (r, σ2)
  | (Raise e, σ2) => (Raise e, σ2)
  end.

(** ** The client *)

(** [self]: the three attributes [__init__] sets. *)
Record MeditrailOCRClient : Type := {
  api_key : string;
  base_url : string;
  headers : gmap string string;
}.

Definition DEFAULT_BASE_URL : string :=
  "https://meditrail.unitedwecare.com/api/v1".

(** [MeditrailOCRClient(api_key, base_url=DEFAULT_BASE_URL)]: [None] for
    [base_url] is the call that leaves the argument out. *)
Definition __init__ (api_key : string) (base_url : option string)
    : MeditrailOCRClient :=
  let base_url := default DEFAULT_BASE_URL base_url in
  {| api_key := api_key;
     base_url := rstrip "/" base_url;
     headers := {[ "X-API-Key" := api_key ]} |}.

Definition close_file (f : FileObject) : FileObject :=
  {| name := name f; mode := mode f; closed := true |}.

(** [if v: d[key] = v] for an [Optional[str]]: [None] and [''] are falsy. *)
Definition set_if_truthy (key : string) (v : option string)
    (d : gmap string string) : gmap string string :=
  match v with
  | Some s => if bool_decide (s = "") then d else <[key := s]> d
  | None => d
  end.

Section Client.
(** Python's [repr] on the values of [json]; the interpreter's, not the
    repository's. *)
Variable repr : json → string.
Variable env : Env.

(** [str(v)], what an f-string writes for [{v}]: a [str] is written as it
    is, and for the other JSON types [str] is [repr]. *)
Definition str (v : json) : string :=
  match v with
  | JString s => s
  | _ => repr v
  end.

Definition os_path_exists (path : string) : bool :=
  bool_decide (is_Some (fs env !! path)).

Definition no_such_file (path : string) : pyexn :=
  new_exn FileNotFoundError
    ("[Errno 2] No such file or directory: " ++ repr (JString path)).

Definition os_path_getsize (path : string) : M Z :=
  match fs env !! path with
  | Some st => mret (st_size st)
  | None => raise (no_such_file path)
  end.

(** [open(path, 'rb')]: a new file object, appended to the table. *)
Definition open_rb (path : string) : M nat := fun σ =>
  match fs env !! path with
  | None => (Raise (no_such_file path), σ)
  | Some st =>
      match open_error st with
      | Some e => (Raise e, σ)
      | None =>
          let f := {| name := path; mode := "rb"; closed := false |} in
          (Return (List.length (handles σ)),
           {| handles := (handles σ ++ [f])%list; sent := sent σ |})
      end
  end.

(** [f.close()]; closing a closed file is allowed and changes nothing. *)
Definition close (fh : nat) : M unit := fun σ =>
  (Return (), {| handles := alter close_file fh (handles σ); sent := sent σ |}).

(** [requests.post(url, headers=..., files=..., data=..., timeout=...)]:
    the call is recorded, then the transport decides. *)
Definition requests_post (url : string) (headers : gmap string string)
    (files : gmap string (string * nat)) (data : gmap string string)
    (timeout : Z) : M Response.t := fun σ =>
  let req := Request.mk "POST" url headers files data timeout in
  let σ' := {| handles := handles σ; sent := (sent σ ++ [req])%list |} in
  match transport env req with
  | Responded r => (Return r, σ')
  | Failed e => (Raise e, σ')
  end.

(** [response.json()] *)
Definition response_json (response : Response.t) : M json :=
  match Response.content response with
  | Json j => mret j
  | NotJson err => raise (new_exn RequestsJSONDecodeError err)
  end.

(** [d.get(key, default)]; only a [dict] has the method. *)
Definition get (d : json) (key : string) (dflt : json) : M json :=
  match d with
  | JObject m => mret (default dflt (m !! key))
  | _ =>
      raise (new_exn AttributeError
               ("'" ++ type_name d ++ "' object has no attribute 'get'"))
  end.

(** [response.raise_for_status()] of [requests]: an [HTTPError] for a
    status in 400..599, nothing otherwise. *)
Definition raise_for_status (response : Response.t) : M unit :=
  let status := Response.status_code response in
  let http_error_msg :=
    if (400 <=? status) && (status <? 500) then
      pretty status ++ " Client Error: " ++ Response.reason response
        ++ " for url: " ++ Response.url response
    else if (500 <=? status) && (status <? 600) then
      pretty status ++ " Server Error: " ++ Response.reason response
        ++ " for url: " ++ Response.url response
    else "" in
  if bool_decide (http_error_msg = "") then mret ()
  else raise (Exn HTTPError http_error_msg (Some response)).

Definition process_document (self : MeditrailOCRClient) (file_path : string)
    (text system_prompt : option string) : M json :=
  (* Validate file exists *)
  if negb (os_path_exists file_path) then
    raise (new_exn FileNotFoundError ("File not found: " ++ file_path))
  else
  (* Check file size (50MB limit) *)
  file_size ← os_path_getsize file_path;
  if file_size >? 50 * 1024 * 1024 then
    raise (new_exn ValueError
             ("File too large: " ++ format_megabytes file_size ++ "MB (max: 50MB)"))
  else
  (* Prepare the request *)
  let url := base_url self ++ "/ocr/process" in
  fh ← open_rb file_path;
  let files : gmap string (string * nat) :=
    {[ "file" := (basename file_path, fh) ]} in
  let data := ∅ in
  let data := set_if_truthy "text" text data in
  let data := set_if_truthy "system_prompt" system_prompt data in
  try_except_finally
    (response ← requests_post url (headers self) files data 60;
     (* Close the file; [files['file'][1]] is [fh] *)
     close fh;;
     let status_code := Response.status_code response in
     if status_code =? 200 then
       response_json response
     else if status_code =? 400 then
       j ← response_json response;
       error_detail ← get j "detail" (JString "Bad Request");
       raise (new_exn RequestException ("Bad Request: " ++ str error_detail))
     else if status_code =? 413 then
       raise (new_exn RequestException "File too large (max 50MB)")
     else if status_code =? 429 then
       j ← response_json response;
       error_detail ← get j "detail" (JObject ∅);
       if isinstance_dict error_detail then
         message ← get error_detail "message" (JString "Usage limit exceeded");
         raise (new_exn RequestException ("Usage limit exceeded: " ++ str message))
       else
         raise (new_exn RequestException "Usage limit exceeded")
     else if status_code =? 500 then
       j ← response_json response;
       error_detail ← get j "detail" (JString "Internal Server Error");
       raise (new_exn RequestException
                ("Internal Server Error: " ++ str error_detail))
     else
       raise_for_status response;;
       (* the function ends here: Python returns [None] *)
       mret JNull)
    [ (Timeout, raise (new_exn RequestException "Request timed out"));
      (ConnectionError, raise (new_exn RequestException "Connection error"));
      (JSONDecodeError, raise (new_exn RequestException "Invalid JSON response")) ]
    (* ['files' in locals()] holds and a file object is truthy *)
    (close fh).
End Client.

(** ** The specification's error taxonomy

    The client signals every failure with a Python exception and has no
    type of error kinds of its own.  The kinds below are the ones the
    specification names; [kind_of] reads the kind off what the caller
    receives, the exception's class and the fixed text its message starts
    with, raise site by raise site. *)
Module ApiError.
Inductive kind : Type :=
  | FileNotFound
  | FileTooLarge
  | BadRequest
  | UsageLimitExceeded
  | ServerError
  | HttpError (status : Z)
  | TimedOut
  | ConnectionFailed
  | InvalidResponse.

Definition kind_of (e : pyexn) : option kind :=
  let msg := exn_msg e in
  match exn_class_of e with
  | FileNotFoundError => Some FileNotFound
  | ValueError =>
      if startswith msg "File too large" then Some FileTooLarge else None
  | HTTPError => HttpError ∘ Response.status_code <$> exn_response e
  | RequestException =>
      if startswith msg "Bad Request: " then Some BadRequest
      else if startswith msg "File too large" then Some FileTooLarge
      else if startswith msg "Usage limit exceeded" then Some UsageLimitExceeded
      else if startswith msg "Internal Server Error: " then Some ServerError
      else if bool_decide (msg = "Request timed out") then Some TimedOut
      else if bool_decide (msg = "Connection error") then Some ConnectionFailed
      else if bool_decide (msg = "Invalid JSON response") then Some InvalidResponse
      else None
  | _ => None
  end.
End ApiError.

(** ** What the statements below talk about *)

(** [part] occurs in [msg]. *)
Definition contains (msg part : string) : Prop :=
  ∃ pre post, msg = pre ++ part ++ post.

(** [k] copies of [c]. *)
Fixpoint repeat_char (c : ascii) (k : nat) : string :=
  match k with
  | O => EmptyString
  | S k' => String c (repeat_char c k')
  end.

(** [s.endswith(c)] for one character. *)
Fixpoint ends_with (c : ascii) (s : string) : bool :=
  match s with
  | EmptyString => false
  | String a EmptyString => Ascii.eqb a c
  | String _ r => ends_with c r
  end.

(** The statuses whose branch decodes the body for a [detail]. *)
Definition json_error_status (status : Z) : Prop :=
  status = 400 ∨ status = 429 ∨ status = 500.

(** The local checks let [path] through: it exists, is no larger than
    50 MiB, and [open] succeeds on it. *)
Definition accepted (env : Env) (path : string) : Prop :=
  ∃ st, fs env !! path = Some st
        ∧ st_size st ≤ 52428800
        ∧ open_error st = None.

(** The request a call is expected to issue, [fh] being the handle of the
    file it has just opened. *)
Definition upload_request (self : MeditrailOCRClient) (file_path : string)
    (text system_prompt : option string) (fh : nat) : Request.t :=
  {| Request.method := "POST";
     Request.url := base_url self ++ "/ocr/process";
     Request.headers := headers self;
     Request.files := {[ "file" := (basename file_path, fh) ]};
     Request.data :=
       set_if_truthy "system_prompt" system_prompt
         (set_if_truthy "text" text ∅);
     Request.timeout := 60 |}.

(** The file object the call leaves in the table once it is done with it. *)
Definition closed_upload (file_path : string) : FileObject :=
  {| name := file_path; mode := "rb"; closed := true |}.

(** The state after a call that got as far as the transport. *)
Definition after_upload (self : MeditrailOCRClient) (file_path : string)
    (text system_prompt : option string) (σ : State) : State :=
  {| handles := (handles σ ++ [closed_upload file_path])%list;
     sent := (sent σ ++ [upload_request self file_path text system_prompt
                           (List.length (handles σ))])%list |}.

(** A computation that leaves the state alone. *)
Definition stateless {A} (c : M A) : Prop := ∀ σ, snd (c σ) = σ.

(** ** The demo entry point, [main]

    [main] prints, so its computations carry the lines written to standard
    output next to the state of the client's world.  It also calls
    [json.loads] on a value that need not be a string, and [print] on text
    that standard output may be unable to encode; the [TypeError] and the
    [UnicodeEncodeError] of these cases are the exceptions in [main] that
    the client never sees. *)

Inductive demo_exn : Type :=
  | PyExn (e : pyexn)
  | TypeError (msg : string)
  | UnicodeEncodeError (msg : string).

(** [str(e)] *)
Definition demo_str (e : demo_exn) : string :=
  match e with
  | PyExn e => exn_msg e
  | TypeError msg => msg
  | UnicodeEncodeError msg => msg
  end.

(** [isinstance(e, Exception)] *)
Definition is_Exception (e : demo_exn) : bool :=
  match e with
  | PyExn e => issubclass (exn_class_of e) Exception
  | TypeError _ => true
  | UnicodeEncodeError _ => true
  end.

Record Process : Type := {
  stdout : list string;   (* what [print] was called with, oldest first *)
  world : State;
}.

Inductive outcome (A : Type) : Type :=
  | Done (a : A)
  | Died (e : demo_exn).
Arguments Done {A} a.
Arguments Died {A} e.

Definition IO (A : Type) : Type := Process → outcome A * Process.

#[global] Instance IO_ret : MRet IO := fun A a p => (Done a, p).

#[global] Instance IO_bind : MBind IO := fun A B k c p =>
  match c p with
  | (Done a, p') => k a p'
  | (Died e, p') => (Died e, p')
  end.

Definition die {A} (e : demo_exn) : IO A := fun p => (Died e, p).

(** [print(line)] on a standard output that takes every line (a UTF-8
    stream that stays open). *)
Definition print (line : string) : IO unit := fun p =>
  (Done (), {| stdout := (stdout p ++ [line])%list; world := world p |}).

(** [print(line)] on a standard output that may refuse the line:
    [write_error line] is what its [write] raises for this text, if
    anything, a [UnicodeEncodeError] when the encoding of the stream cannot
    represent it, an [OSError] when the stream is broken.  Nothing of a
    refused line is written. *)
Definition print_checked (write_error : string → option demo_exn)
    (line : string) : IO unit :=
  match write_error line with
  | Some e => die e
  | None => print line
  end.

(** A computation of the client, run inside [main]. *)
Definition lift {A} (c : M A) : IO A := fun p =>
  match c (world p) with
  | (Return a, w) => (Done a, {| stdout := stdout p; world := w |})
  | (Raise e, w) => (Died (PyExn e), {| stdout := stdout p; world := w |})
  end.

(** [try: body  except Exception as e: handler(e)] *)
Definition try_except_Exception (body : IO unit) (handler : demo_exn → IO unit)
    : IO unit := fun p =>
  match body p with
  | (Done a, p') => (Done a, p')
  | (Died e, p') => if is_Exception e then handler e p' else (Died e, p')
  end.

Definition newline : string := String "010" EmptyString.

Definition API_KEY : string :=
  "mt_LaRysGk4Ap9ytP29VKtF9E_8MECKcLcZSgRYLAF2KP5qr_UVPdCUqchtJ9fM7joiXX8z".

Section Demo.
(** Python's [repr], and [json.loads] on a [str]; the interpreter's and the
    standard library's, not the repository's. *)
Variable repr : json → string.
Variable json_loads : string → body.
Variable env : Env.

(** [json.loads(v)]: only a string is decoded. *)
Definition loads (v : json) : IO json :=
  match v with
  | JString s =>
      match json_loads s with
      | Json j => mret j
      | NotJson err => die (PyExn (new_exn JSONDecodeError err))
      end
  | _ =>
      die (TypeError ("the JSON object must be str, bytes or bytearray, not "
                        ++ type_name v))
  end.

(** [main] is written once, over what [print] does on the standard output
    at hand. *)
Section Printing.
Variable pr : string → IO unit.

(** Example 1 of [main], its first [try] statement. *)
Definition main_example_1_with (client : MeditrailOCRClient) : IO unit :=
  try_except_Exception
    (let file_path := "sample_files/chest_xray.jpg" in
     if os_path_exists env file_path then
       result ← lift (process_document repr env client file_path
                        (Some "Chest X-ray examination")
                        (Some "Extract key clinical findings and abnormalities"));
       v ← lift (get result "id" JNull);
       pr ("Success! Document ID: " ++ str repr v);;
       v ← lift (get result "clinical_relevance" JNull);
       pr ("Clinical Relevance: " ++ str repr v);;
       v ← lift (get result "doctor_names" JNull);
       pr ("Doctor Names: " ++ str repr v);;
       (* Parse the response field (it's a JSON string) *)
       v ← lift (get result "response" (JString "{}"));
       response_data ← loads v;
       v ← lift (get response_data "document_type" (JString "N/A"));
       pr ("Document Type: " ++ str repr v);;
       v ← lift (get response_data "summary" (JString "N/A"));
       pr ("Summary: " ++ str repr v);;
       (* Print metadata *)
       metadata ← lift (get result "metadata" (JObject ∅));
       v ← lift (get metadata "original_file_name" JNull);
       pr ("Original File: " ++ str repr v);;
       v ← lift (get metadata "file_size" JNull);
       pr ("File Size: " ++ str repr v);;
       v ← lift (get metadata "page_count" JNull);
       pr ("Page Count: " ++ str repr v)
     else
       pr ("Sample file not found: " ++ file_path);;
       pr "Please add a sample medical document to test with.")
    (fun e => pr ("Error processing document: " ++ demo_str e)).

(** Example 2 of [main], its second [try] statement. *)
Definition main_example_2_with (client : MeditrailOCRClient) : IO unit :=
  try_except_Exception
    (let file_path := "sample_files/prescription.pdf" in
     if os_path_exists env file_path then
       result ← lift (process_document repr env client file_path
                        (Some "Prescription document")
                        (Some "Extract medication names, dosages, and doctor information"));
       v ← lift (get result "id" JNull);
       pr ("Success! Document ID: " ++ str repr v);;
       v ← lift (get result "clinical_relevance" JNull);
       pr ("Clinical Relevance: " ++ str repr v);;
       (* Parse the response field *)
       v ← lift (get result "response" (JString "{}"));
       response_data ← loads v;
       v ← lift (get response_data "document_type" (JString "N/A"));
       pr ("Document Type: " ++ str repr v);;
       v ← lift (get response_data "summary" (JString "N/A"));
       pr ("Summary: " ++ str repr v)
     else
       pr ("Sample file not found: " ++ file_path);;
       pr "Please add a sample PDF document to test with.")
    (fun e => pr ("Error processing document: " ++ demo_str e)).

Definition main_with : IO unit :=
  (* Initialize client *)
  let client := __init__ API_KEY None in
  pr "=== Example 1: Processing Medical Image ===";;
  main_example_1_with client;;
  pr (newline ++ repeat_char "=" 50 ++ newline);;
  pr "=== Example 2: Processing PDF Document ===";;
  main_example_2_with client.
End Printing.

(** [main] on a standard output that takes every line. *)
Definition main_example_1 : MeditrailOCRClient → IO unit :=
  main_example_1_with print.

Definition main_example_2 : MeditrailOCRClient → IO unit :=
  main_example_2_with print.

Definition main : IO unit := main_with print.

(** [main] on a standard output that may refuse lines. *)
Definition main_checked (write_error : string → option demo_exn) : IO unit :=
  main_with (print_checked write_error).
End Demo.

(** What [if v:] lets through of an [Optional[str]]: a non-empty string. *)
Definition nonempty (v : option string) : option string :=
  match v with
  | Some s => if bool_decide (s = "") then None else Some s
  | None => None
  end.

(** A computation of [main] that at most prints: it adds to the output and
    leaves the client's world alone. *)
Definition quiet {A} (c : IO A) : Prop :=
  ∀ p, ∃ out,
    snd (c p) = {| stdout := (stdout p ++ out)%list; world := world p |}.

(** The line [main] prints between its two examples. *)
Definition separator : string := newline ++ repeat_char "=" 50 ++ newline.

(** ** A small world to run the client in *)

(** [repr] on the scalars that have a short one; enough for the examples. *)
Definition sample_repr (v : json) : string :=
  match v with
  | JNull => "None"
  | JBool true => "True"
  | JBool false => "False"
  | JInt n => pretty n
  | _ => "..."
  end.

Definition sample_fs : gmap string FileStat :=
  <["scans/report.pdf" := {| st_size := 204800; open_error := None |}]>
  (<["scans/limit.pdf" := {| st_size := 52428800; open_error := None |}]>
  (<["scans/huge.pdf" := {| st_size := 52428801; open_error := None |}]>
  (<["scans/locked.pdf" :=
       {| st_size := 1024;
          open_error :=
            Some (new_exn PermissionError
                    "[Errno 13] Permission denied: 'scans/locked.pdf'") |}]>
   ∅))).

(** A transport that gives every request the same answer. *)
Definition sample_env (answer : PostResult) : Env :=
  {| fs := sample_fs; transport := λ _, answer |}.

Definition sample_url : string :=
  "https://meditrail.unitedwecare.com/api/v1/ocr/process".

Definition answer (status : Z) (reason : string) (content : body) : PostResult :=
  Responded (Response.mk status reason sample_url content).

Definition sample_result : json :=
  JObject (<["id" := JInt 17]> (<["doctor_names" := JArray [JString "Rao"]]> ∅)).

Definition fresh_state : State := {| handles := []; sent := [] |}.

Definition sample_client : MeditrailOCRClient := __init__ "mt_key" None.

(** A world for [main]: the first sample file is there, the second is not. *)
Definition demo_env (a : PostResult) : Env :=
  {| fs := {[ "sample_files/chest_xray.jpg" :=
                {| st_size := 348160; open_error := None |} ]};
     transport := λ _, a |}.

(** A decoder that knows the empty object only. *)
Definition sample_loads (s : string) : body :=
  if bool_decide (s = "{}") then Json (JObject ∅)
  else NotJson "Expecting value: line 1 column 1 (char 0)".

Definition fresh_process : Process := {| stdout := []; world := fresh_state |}.

(** Text of 7-bit characters only. *)
Fixpoint is_ascii (s : string) : bool :=
  match s with
  | EmptyString => true
  | String (Ascii _ _ _ _ _ _ _ b7) r => negb b7 && is_ascii r
  end.

(** A standard output with the ASCII encoding: it refuses every line that
    holds anything else (the text of the error stands in for the codec's,
    which names the character and its position). *)
Definition ascii_stdout (line : string) : option demo_exn :=
  if is_ascii line then None
  else Some (UnicodeEncodeError
               "'ascii' codec can't encode character: ordinal not in range(128)").

Lemma alter_close_last (l : list FileObject) (f : FileObject) :
  alter close_file (List.length l) (l ++ [f])%list = (l ++ [close_file f])%list.
Proof.
  induction l as [|x l IH]; simpl; [reflexivity|].
  f_equal. exact IH.
Qed.


(** ** Computations that leave the state alone *)

Lemma bind_run {A B} (c : M A) (k : A → M B) (σ : State) :
  (c ≫= k) σ =
  match c σ with
  | (Return a, σ') => k a σ'
  | (Raise e, σ') => (Raise e, σ')
  end.
Proof. reflexivity. Qed.

Lemma mret_bind {A B} (a : A) (k : A → M B) (σ : State) :
  (mret a ≫= k) σ = k a σ.
Proof. reflexivity. Qed.

Lemma stateless_mret {A} (a : A) : stateless (mret a : M A).
Proof. by intros σ. Qed.

Lemma stateless_raise {A} (e : pyexn) : stateless (raise e : M A).
Proof. by intros σ. Qed.

Lemma stateless_bind {A B} (c : M A) (k : A → M B) :
  stateless c → (∀ a, stateless (k a)) → stateless (c ≫= k).
Proof.
  intros Hc Hk σ. rewrite bind_run. specialize (Hc σ).
  destruct (c σ) as [[a|e] σ']; simpl in Hc; subst σ'; [apply Hk|done].
Qed.

Lemma stateless_response_json (r : Response.t) : stateless (response_json r).
Proof. unfold response_json. destruct (Response.content r); by intros σ. Qed.

Lemma stateless_get (d : json) (key : string) (dflt : json) :
  stateless (get d key dflt).
Proof. destruct d; by intros σ. Qed.

Lemma stateless_raise_for_status (r : Response.t) :
  stateless (raise_for_status r).
Proof. unfold raise_for_status. case_bool_decide; by intros σ. Qed.

Create HintDb stateless.
#[export] Hint Resolve stateless_mret stateless_raise stateless_response_json
  stateless_get stateless_raise_for_status : stateless.

Ltac solve_stateless :=
  repeat first
    [ solve [auto with stateless]
    | apply stateless_bind; [|intros ?]
    | case_match ].

(** The state a [try] statement ends in depends only on where its body
    stopped, as long as the handlers do nothing but raise. *)
Lemma try_except_finally_state {A} (body : M A) (hs : list (exn_class * M A))
    (fin : M unit) (σ : State) :
  Forall (λ h, stateless h.2) hs →
  snd (try_except_finally body hs fin σ) = snd (fin (snd (body σ))).
Proof.
  intros Hhs. unfold try_except_finally.
  destruct (body σ) as [[a|e] σ']; simpl.
  - by destruct (fin σ') as [[[]|e] σ2].
  - assert (∀ h, find_handler hs e = Some h → stateless h) as Hfind.
    { clear -Hhs. induction Hhs as [|[c h0] hs Hh0 _ IH]; simpl; [done|].
      intros h. case_match; [|by apply IH]. by intros [= <-]. }
    destruct (find_handler hs e) as [h|] eqn:Eh.
    + specialize (Hfind h eq_refl σ').
      destruct (h σ') as [r σ1]. simpl in Hfind. subst σ1.
      by destruct (fin σ') as [[[]|e'] σ2].
    + by destruct (fin σ') as [[[]|e'] σ2].
Qed.

Lemma open_rb_accepted (repr : json → string) (env : Env) (path : string)
    (st : FileStat) (σ : State) :
  fs env !! path = Some st →
  open_error st = None →
  open_rb repr env path σ =
    (Return (List.length (handles σ)),
     {| handles :=
          (handles σ ++ [{| name := path; mode := "rb"; closed := false |}])%list;
        sent := sent σ |}).
Proof. intros Hfs Hop. unfold open_rb. by rewrite Hfs, Hop. Qed.

(** Runs [process_document] through the local checks of an accepted file,
    up to the answer of the transport. *)
Ltac enter_upload Hacc :=
  let st := fresh "st" in
  let Hfs := fresh "Hfs" in
  let Hsz := fresh "Hsz" in
  let Hop := fresh "Hop" in
  destruct Hacc as (st & Hfs & Hsz & Hop);
  unfold process_document, os_path_exists, os_path_getsize;
  rewrite Hfs;
  rewrite bool_decide_eq_true_2 by eauto;
  cbn [negb];
  unfold mbind, M_bind, mret, M_ret;
  destruct (Z.gtb_spec (st_size st) (50 * 1024 * 1024)); [lia|];
  unfold open_rb; rewrite Hfs, Hop;
  unfold try_except_finally, requests_post.


(** ** Strings: what [rstrip] and [basename] compute *)

Lemma append_nil_l (s : string) : "" ++ s = s.
Proof. reflexivity. Qed.

Lemma append_cons (a : ascii) (s t : string) :
  String a s ++ t = String a (s ++ t).
Proof. reflexivity. Qed.

Lemma append_nil_r (s : string) : s ++ "" = s.
Proof. induction s as [|a s IH]; [done|]. rewrite append_cons. by f_equal. Qed.

Lemma contains_suffix (pre part : string) : contains (pre ++ part) part.
Proof. exists pre, "". by rewrite append_nil_r. Qed.

Lemma rstrip_decompose (c : ascii) (s : string) :
  ∃ k, s = rstrip c s ++ repeat_char c k.
Proof.
  induction s as [|a r [k IH]]; [by exists 0%nat|].
  simpl. destruct (rstrip c r) as [|b t] eqn:E.
  - rewrite append_nil_l in IH. destruct (Ascii.eqb_spec a c) as [->|_].
    + exists (S k). rewrite append_nil_l. simpl. by f_equal.
    + exists k. rewrite append_cons, append_nil_l. by f_equal.
  - exists k. rewrite append_cons. by f_equal.
Qed.

Lemma rstrip_no_trailing (c : ascii) (s : string) :
  ends_with c (rstrip c s) = false.
Proof.
  induction s as [|a r IH]; [done|].
  simpl. destruct (rstrip c r) as [|b t] eqn:E.
  - destruct (Ascii.eqb_spec a c) as [->|Hne]; simpl; [done|].
    by apply Ascii.eqb_neq.
  - exact IH.
Qed.

Lemma rfind_lower (c : ascii) (s : string) : -1 ≤ rfind c s.
Proof.
  induction s as [|a r IH]; simpl; [lia|].
  destruct (Z.leb_spec 0 (rfind c r)); [lia|].
  destruct (Ascii.eqb a c); lia.
Qed.

(** [basename p] is what follows the last ['/'] of [p] (all of [p] when it
    has none). *)
Lemma basename_decompose (p : string) :
  ∃ dir, p = dir ++ basename p
         ∧ (dir = "" ∨ ends_with "/" dir = true)
         ∧ rfind "/" (basename p) = -1.
Proof.
  unfold basename. induction p as [|a r (dir & Hp & Hdir & Hb)].
  - exists "". split; [reflexivity|]. split; [by left|reflexivity].
  - pose proof (rfind_lower "/" r) as Hlow. simpl rfind.
    destruct (Z.leb_spec 0 (rfind "/" r)) as [Hi|Hi].
    + replace (Z.to_nat (rfind "/" r + 1 + 1))
        with (S (Z.to_nat (rfind "/" r + 1))) by lia.
      simpl slice_from. exists (String a dir).
      split; [rewrite append_cons; by f_equal|]. split; [|done].
      right. destruct dir as [|d dir'].
      * rewrite append_nil_l in Hp. rewrite <- Hp in Hb. lia.
      * destruct Hdir as [?|Hdir]; [done|]. exact Hdir.
    + assert (rfind "/" r = -1) as Hr by lia.
      rewrite Hr in *. simpl in Hb.
      destruct (Ascii.eqb_spec a "/") as [->|Hne].
      * exists "/". simpl. split; [done|]. split; [by right|]. exact Hr.
      * exists "". simpl. split; [done|]. split; [by left|].
        rewrite Hr. simpl. apply Ascii.eqb_neq in Hne. by rewrite Hne.
Qed.

Lemma unlisted_status (status : Z) :
  status ∉ [200; 400; 413; 429; 500] →
  status ≠ 200 ∧ status ≠ 400 ∧ status ≠ 413 ∧ status ≠ 429 ∧ status ≠ 500.
Proof. rewrite !not_elem_of_cons. tauto. Qed.

(** ** The model on a few inputs *)

Example rstrip_examples :
  rstrip "/" "https://ocr.example/api//" = "https://ocr.example/api"
  ∧ rstrip "/" "///" = ""
  ∧ rstrip "/" "a//b" = "a//b".
Proof. by repeat split. Qed.

Example basename_examples :
  basename "scans/report.pdf" = "report.pdf"
  ∧ basename "report.pdf" = "report.pdf"
  ∧ basename "scans/" = "".
Proof. by repeat split. Qed.

Example format_megabytes_examples :
  format_megabytes 52428801 = "50.00"
  ∧ format_megabytes 52434043 = "50.01"
  ∧ format_megabytes 55000000 = "52.45".
Proof. repeat split; vm_compute; reflexivity. Qed.

(** A [ConnectTimeout] is both a [ConnectionError] and a [Timeout]; the
    first [except] clause takes it, and the file object is closed. *)
Example connect_timeout_example :
  process_document sample_repr
    (sample_env (Failed (new_exn ConnectTimeout "Connection timed out.")))
    sample_client "scans/report.pdf" None None fresh_state
  = (Raise (new_exn RequestException "Request timed out"),
     {| handles := [closed_upload "scans/report.pdf"];
        sent := [upload_request sample_client "scans/report.pdf" None None 0] |}).
Proof. vm_compute. reflexivity. Qed.

(** A file that [open] refuses: the error is [open]'s own and nothing is
    sent. *)
Example unreadable_file_example :
  process_document sample_repr (sample_env (answer 200 "OK" (Json sample_result)))
    sample_client "scans/locked.pdf" None None fresh_state
  = (Raise (new_exn PermissionError
              "[Errno 13] Permission denied: 'scans/locked.pdf'"),
     fresh_state).
Proof. vm_compute. reflexivity. Qed.

(** Decides the [except] clauses once the class of the exception is known. *)
Ltac eval_issubclass :=
  repeat match goal with
  | |- context [issubclass ?c ?d] =>
      let b := eval vm_compute in (issubclass c d) in
      change (issubclass c d) with b
  end.

Section Run.
Variable repr : json → string.
Variable env : Env.
Variable self : MeditrailOCRClient.
Variable file_path : string.
Variables text system_prompt : option string.
Variable σ : State.

Local Abbreviation run :=
  (process_document repr env self file_path text system_prompt σ).
Local Abbreviation request :=
  (upload_request self file_path text system_prompt (List.length (handles σ))).
Local Abbreviation done_state := (after_upload self file_path text system_prompt σ).

Ltac upload Hacc Hpost :=
  enter_upload Hacc;
  change (transport env _) with (transport env request);
  rewrite Hpost; cbn.

Ltac leave :=
  cbn; eval_issubclass; cbn; rewrite ?alter_close_last; reflexivity.

(** Whatever the transport answers, a call on an accepted file leaves
    exactly one more file object, closed, and one more request. *)
Lemma accepted_final_state :
  accepted env file_path → snd run = done_state.
Proof.
  intros (st & Hfs & Hsz & Hop).
  unfold process_document, os_path_exists, os_path_getsize.
  rewrite Hfs. rewrite bool_decide_eq_true_2 by eauto. cbn [negb].
  rewrite mret_bind.
  destruct (Z.gtb_spec (st_size st) (50 * 1024 * 1024)); [lia|].
  rewrite bind_run, (open_rb_accepted _ _ _ st) by done.
  rewrite try_except_finally_state
    by (repeat constructor; apply stateless_raise).
  rewrite bind_run. unfold requests_post at 1.
  change (transport env _) with (transport env request).
  destruct (transport env request) as [r|e]; cbn [snd handles sent].
  - rewrite bind_run. cbn [close handles sent].
    rewrite alter_close_last.
    match goal with
    | |- context [?c {| handles := ?h; sent := ?s |}] =>
        assert (stateless c) as Hc by solve_stateless;
        rewrite (Hc {| handles := h; sent := s |})
    end.
    cbn. by rewrite alter_close_last.
  - cbn. by rewrite alter_close_last.
Qed.

(** *** The local checks *)

Lemma run_missing :
  os_path_exists env file_path = false →
  run = (Raise (new_exn FileNotFoundError ("File not found: " ++ file_path)), σ).
Proof. intros Hex. unfold process_document. by rewrite Hex. Qed.

Lemma run_oversize (st : FileStat) :
  fs env !! file_path = Some st →
  52428800 < st_size st →
  run = (Raise (new_exn ValueError
                  ("File too large: " ++ format_megabytes (st_size st)
                     ++ "MB (max: 50MB)")), σ).
Proof.
  intros Hfs Hbig. unfold process_document, os_path_exists, os_path_getsize.
  rewrite Hfs. rewrite bool_decide_eq_true_2 by eauto. cbn [negb].
  rewrite mret_bind.
  by destruct (Z.gtb_spec (st_size st) (50 * 1024 * 1024)); [|lia].
Qed.

Lemma run_open_fails (st : FileStat) (e : pyexn) :
  fs env !! file_path = Some st →
  st_size st ≤ 52428800 →
  open_error st = Some e →
  run = (Raise e, σ).
Proof.
  intros Hfs Hsmall Hop.
  unfold process_document, os_path_exists, os_path_getsize.
  rewrite Hfs. rewrite bool_decide_eq_true_2 by eauto. cbn [negb].
  rewrite mret_bind.
  destruct (Z.gtb_spec (st_size st) (50 * 1024 * 1024)); [lia|].
  rewrite bind_run. unfold open_rb. by rewrite Hfs, Hop.
Qed.

(** C8. A path that [os.path.exists] does not find makes the call raise
    [FileNotFoundError("File not found: <path>")], the spec's
    [FileNotFound], with the state untouched: no file is opened and no
    request is issued. *)
Theorem missing_file_raises_FileNotFound :
  os_path_exists env file_path = false →
  let e := new_exn FileNotFoundError ("File not found: " ++ file_path) in
  run = (Raise e, σ)
  ∧ ApiError.kind_of e = Some ApiError.FileNotFound
  ∧ sent (snd run) = sent σ.
Proof.
  intros Hex e. rewrite (run_missing Hex). by repeat split.
Qed.

(** C2. A file larger than 52428800 bytes makes the call raise
    [ValueError("File too large: ...")], the spec's [FileTooLarge], with
    the state untouched, so without any request.  A file of at most
    52428800 bytes gets past the size check: the call goes on to [open],
    fails with [open]'s error if that fails, and otherwise issues its
    request. *)
Theorem size_check (st : FileStat) :
  fs env !! file_path = Some st →
  (52428800 < st_size st →
     let e := new_exn ValueError
                ("File too large: " ++ format_megabytes (st_size st)
                   ++ "MB (max: 50MB)") in
     run = (Raise e, σ)
     ∧ ApiError.kind_of e = Some ApiError.FileTooLarge
     ∧ sent (snd run) = sent σ)
  ∧ (st_size st ≤ 52428800 →
       match open_error st with
       | Some e => run = (Raise e, σ)
       | None => snd run = done_state
       end).
Proof.
  intros Hfs. split.
  - intros Hbig e. rewrite (run_oversize st Hfs Hbig). by repeat split.
  - intros Hsmall. destruct (open_error st) as [e|] eqn:Hop.
    + by apply (run_open_fails st).
    + apply accepted_final_state. by exists st.
Qed.

(** C6. The call opens a file exactly when the local checks accept the
    path, and then, whichever way it ends (a returned value, any of the
    status errors, a timeout, a connection failure, an undecodable body,
    or an exception nobody handles), the one file object it created is
    closed in the state it leaves.  Otherwise the table of file objects
    is as it was. *)
Theorem file_handle_released :
  (accepted env file_path
   ∧ handles (snd run) = (handles σ ++ [closed_upload file_path])%list
   ∧ closed (closed_upload file_path) = true)
  ∨ (¬ accepted env file_path ∧ handles (snd run) = handles σ).
Proof.
  destruct (fs env !! file_path) as [st|] eqn:Hfs.
  - destruct (Z.ltb_spec 52428800 (st_size st)) as [Hbig|Hsmall].
    + right. split; [|by rewrite (run_oversize st)].
      intros (st' & Hfs' & Hsz & _). simplify_eq. lia.
    + destruct (open_error st) as [e|] eqn:Hop.
      * right. split; [|by rewrite (run_open_fails st e)].
        intros (st' & Hfs' & _ & Hop'). simplify_eq.
      * left. assert (accepted env file_path) as Ha by (by exists st).
        split; [done|]. by rewrite (accepted_final_state Ha).
  - right. split; [intros (st' & Hfs' & _); simplify_eq|].
    rewrite run_missing; [done|].
    unfold os_path_exists. rewrite Hfs. apply bool_decide_eq_false_2.
    by intros [? ?].
Qed.

(** *** Answers of the server *)

Variable r : Response.t.
Hypothesis Hacc : accepted env file_path.
Hypothesis Hpost : transport env request = Responded r.

Ltac answered := let H := fresh in pose proof Hacc as H; upload H Hpost.

Lemma run_200 (j : json) :
  Response.status_code r = 200 →
  Response.content r = Json j →
  run = (Return j, done_state).
Proof.
  intros Hst Hc. answered. rewrite Hst. cbn.
  unfold response_json. rewrite Hc. cbn. leave.
Qed.

Lemma run_413 :
  Response.status_code r = 413 →
  run = (Raise (new_exn RequestException "File too large (max 50MB)"),
         done_state).
Proof. intros Hst. answered. rewrite Hst. cbn. leave. Qed.

Lemma run_not_json (err : string) :
  json_error_status (Response.status_code r) →
  Response.content r = NotJson err →
  run = (Raise (new_exn RequestException "Invalid JSON response"), done_state).
Proof.
  intros Hst Hc. answered.
  destruct Hst as [E | [E | E]]; rewrite E.
  all: cbn; unfold response_json; rewrite Hc; cbn; leave.
Qed.

Lemma run_not_dict (j : json) :
  json_error_status (Response.status_code r) →
  Response.content r = Json j →
  isinstance_dict j = false →
  run = (Raise (new_exn AttributeError
                  ("'" ++ type_name j ++ "' object has no attribute 'get'")),
         done_state).
Proof.
  intros Hst Hc Hj. answered.
  destruct Hst as [E | [E | E]]; rewrite E.
  all: cbn; unfold response_json; rewrite Hc; cbn.
  all: destruct j; try discriminate Hj; cbn; leave.
Qed.

Lemma run_400 (m : gmap string json) :
  Response.status_code r = 400 →
  Response.content r = Json (JObject m) →
  run = (Raise (new_exn RequestException
                  ("Bad Request: "
                     ++ str repr (default (JString "Bad Request") (m !! "detail")))),
         done_state).
Proof.
  intros Hst Hc. answered. rewrite Hst. cbn.
  unfold response_json. rewrite Hc. cbn. leave.
Qed.

Lemma run_500 (m : gmap string json) :
  Response.status_code r = 500 →
  Response.content r = Json (JObject m) →
  run = (Raise (new_exn RequestException
                  ("Internal Server Error: "
                     ++ str repr (default (JString "Internal Server Error")
                                    (m !! "detail")))),
         done_state).
Proof.
  intros Hst Hc. answered. rewrite Hst. cbn.
  unfold response_json. rewrite Hc. cbn. leave.
Qed.

Lemma run_429_dict (m d : gmap string json) :
  Response.status_code r = 429 →
  Response.content r = Json (JObject m) →
  default (JObject ∅) (m !! "detail") = JObject d →
  run = (Raise (new_exn RequestException
                  ("Usage limit exceeded: "
                     ++ str repr (default (JString "Usage limit exceeded")
                                    (d !! "message")))),
         done_state).
Proof.
  intros Hst Hc Hd. answered. rewrite Hst. cbn.
  unfold response_json. rewrite Hc. cbn. rewrite Hd. cbn. leave.
Qed.

Lemma run_429_other (m : gmap string json) (d : json) :
  Response.status_code r = 429 →
  Response.content r = Json (JObject m) →
  m !! "detail" = Some d →
  isinstance_dict d = false →
  run = (Raise (new_exn RequestException "Usage limit exceeded"), done_state).
Proof.
  intros Hst Hc Hd Hnd. answered. rewrite Hst. cbn.
  unfold response_json. rewrite Hc. cbn. rewrite Hd. cbn. rewrite Hnd. cbn.
  leave.
Qed.

Lemma run_unlisted_error :
  Response.status_code r ∉ [200; 400; 413; 429; 500] →
  400 ≤ Response.status_code r < 600 →
  ∃ msg, run = (Raise (Exn HTTPError msg (Some r)), done_state).
Proof.
  intros Hst Hrange. answered.
  destruct (unlisted_status _ Hst) as (H200 & H400 & H413 & H429 & H500).
  rewrite !(proj2 (Z.eqb_neq (Response.status_code r) _)) by done.
  unfold raise_for_status.
  destruct (Z.ltb_spec (Response.status_code r) 500).
  - rewrite (proj2 (Z.leb_le 400 _)) by lia. cbn [andb].
    rewrite bool_decide_eq_false_2
      by (destruct (pretty (Response.status_code r)); discriminate).
    exists (pretty (Response.status_code r) ++ " Client Error: "
              ++ Response.reason r ++ " for url: " ++ Response.url r).
    leave.
  - rewrite andb_false_r.
    rewrite (proj2 (Z.leb_le 500 _)), (proj2 (Z.ltb_lt _ 600)) by lia.
    cbn [andb].
    rewrite bool_decide_eq_false_2
      by (destruct (pretty (Response.status_code r)); discriminate).
    exists (pretty (Response.status_code r) ++ " Server Error: "
              ++ Response.reason r ++ " for url: " ++ Response.url r).
    leave.
Qed.

Lemma run_unlisted_quiet :
  Response.status_code r ∉ [200; 400; 413; 429; 500] →
  ¬ (400 ≤ Response.status_code r < 600) →
  run = (Return JNull, done_state).
Proof.
  intros Hst Hrange. answered.
  destruct (unlisted_status _ Hst) as (H200 & H400 & H413 & H429 & H500).
  rewrite !(proj2 (Z.eqb_neq (Response.status_code r) _)) by done.
  unfold raise_for_status.
  destruct (Z.leb_spec 400 (Response.status_code r));
    destruct (Z.ltb_spec (Response.status_code r) 500);
    destruct (Z.leb_spec 500 (Response.status_code r));
    destruct (Z.ltb_spec (Response.status_code r) 600);
    try lia; cbn [andb]; rewrite bool_decide_eq_true_2 by done; leave.
Qed.

(** C7. A 200 answer whose body parses makes the call return the parsed
    value itself, whatever JSON value it is. *)
Theorem ok_returns_parsed_body (j : json) :
  Response.status_code r = 200 →
  Response.content r = Json j →
  run = (Return j, done_state).
Proof. apply run_200. Qed.

(** C4. A 429 answer whose body is an object: when [detail] is an object
    with a [message], the call raises
    [RequestException("Usage limit exceeded: <message>")], whose text
    contains the message (the string itself when it is a string); when
    [detail] is there and is not an object, it raises
    [RequestException("Usage limit exceeded")] and nothing more.  Both
    are the spec's [UsageLimitExceeded]. *)
Theorem usage_limit_message (m : gmap string json) :
  Response.status_code r = 429 →
  Response.content r = Json (JObject m) →
  (∀ d v, m !! "detail" = Some (JObject d) → d !! "message" = Some v →
     let e := new_exn RequestException
                ("Usage limit exceeded: " ++ str repr v) in
     run = (Raise e, done_state)
     ∧ ApiError.kind_of e = Some ApiError.UsageLimitExceeded
     ∧ contains (exn_msg e) (str repr v)
     ∧ (∀ s, v = JString s → contains (exn_msg e) s))
  ∧ (∀ d, m !! "detail" = Some d → isinstance_dict d = false →
       let e := new_exn RequestException "Usage limit exceeded" in
       run = (Raise e, done_state)
       ∧ ApiError.kind_of e = Some ApiError.UsageLimitExceeded).
Proof.
  intros Hst Hc. split.
  - intros d v Hd Hv e. split; [|split; [done|]].
    + rewrite (run_429_dict m d Hst Hc) by (by rewrite Hd).
      by rewrite Hv.
    + split; [apply contains_suffix|].
      intros s' ->. apply contains_suffix.
  - intros d Hd Hnd e. split; [|done].
    by apply (run_429_other m d).
Qed.

(** C10. For a 400, 429 or 500 answer the body is decoded before anything
    else: an undecodable body makes the call raise
    [RequestException("Invalid JSON response")], the spec's
    [InvalidResponse].  The default texts are used for a body that is a
    JSON object without [detail] (and, for 429, for a [detail] object
    without [message]); a [detail] that is there takes their place.  One
    of the three status errors comes out only when the body is a JSON
    object.  A 413 answer raises
    [RequestException("File too large (max 50MB)")], the spec's
    [FileTooLarge], without the body being looked at. *)
Theorem error_bodies :
  let status := Response.status_code r in
  (json_error_status status → ∀ err, Response.content r = NotJson err →
     let e := new_exn RequestException "Invalid JSON response" in
     run = (Raise e, done_state)
     ∧ ApiError.kind_of e = Some ApiError.InvalidResponse)
  ∧ (∀ m, Response.content r = Json (JObject m) →
       (status = 400 → m !! "detail" = None →
          run = (Raise (new_exn RequestException "Bad Request: Bad Request"),
                 done_state))
       ∧ (status = 400 → ∀ d, m !! "detail" = Some d →
            run = (Raise (new_exn RequestException
                            ("Bad Request: " ++ str repr d)),
                   done_state))
       ∧ (status = 500 → ∀ d, m !! "detail" = Some d →
            run = (Raise (new_exn RequestException
                            ("Internal Server Error: " ++ str repr d)),
                   done_state))
       ∧ (status = 429 → m !! "detail" = None →
            run = (Raise (new_exn RequestException
                            "Usage limit exceeded: Usage limit exceeded"),
                   done_state))
       ∧ (status = 429 →
            ∀ d, m !! "detail" = Some (JObject d) → d !! "message" = None →
            run = (Raise (new_exn RequestException
                            "Usage limit exceeded: Usage limit exceeded"),
                   done_state))
       ∧ (status = 500 → m !! "detail" = None →
            run = (Raise (new_exn RequestException
                            "Internal Server Error: Internal Server Error"),
                   done_state)))
  ∧ (json_error_status status → ∀ e σ',
       run = (Raise e, σ') →
       ApiError.kind_of e = Some ApiError.BadRequest
       ∨ ApiError.kind_of e = Some ApiError.UsageLimitExceeded
       ∨ ApiError.kind_of e = Some ApiError.ServerError →
       ∃ m, Response.content r = Json (JObject m))
  ∧ (status = 413 →
       let e := new_exn RequestException "File too large (max 50MB)" in
       run = (Raise e, done_state)
       ∧ ApiError.kind_of e = Some ApiError.FileTooLarge).
Proof.
  intros status. split; [|split; [|split]].
  - intros Hst err Hc e. split; [|done]. by apply (run_not_json err).
  - intros m Hc. split; [|split; [|split; [|split; [|split]]]].
    + intros Hst Hd. rewrite (run_400 m Hst Hc). by rewrite Hd.
    + intros Hst d Hd. rewrite (run_400 m Hst Hc). by rewrite Hd.
    + intros Hst d Hd. rewrite (run_500 m Hst Hc). by rewrite Hd.
    + intros Hst Hd. rewrite (run_429_dict m ∅ Hst Hc) by (by rewrite Hd).
      done.
    + intros Hst d Hd Hm.
      rewrite (run_429_dict m d Hst Hc) by (by rewrite Hd). by rewrite Hm.
    + intros Hst Hd. rewrite (run_500 m Hst Hc). by rewrite Hd.
  - intros Hst e σ' Hrun Hkind.
    destruct (Response.content r) as [j|err] eqn:Hc.
    + destruct (isinstance_dict j) eqn:Hj; [destruct j; try done; eauto|].
      rewrite (run_not_dict j Hst Hc Hj) in Hrun. simplify_eq.
      by destruct Hkind as [? | [? | ?]].
    + rewrite (run_not_json err Hst Hc) in Hrun. simplify_eq.
      by destruct Hkind as [? | [? | ?]].
  - intros Hst e. split; [|done]. by apply run_413.
Qed.

(** *** Failures of the transport *)

Lemma run_timeout (e : pyexn) :
  transport env request = Failed e →
  issubclass (exn_class_of e) Timeout = true →
  run = (Raise (new_exn RequestException "Request timed out"), done_state).
Proof.
  clear Hpost. intros Hfail Hcls.
  let H := fresh in pose proof Hacc as H; upload H Hfail.
  rewrite Hcls. cbn. leave.
Qed.

Lemma run_connection_error (e : pyexn) :
  transport env request = Failed e →
  issubclass (exn_class_of e) Timeout = false →
  issubclass (exn_class_of e) ConnectionError = true →
  run = (Raise (new_exn RequestException "Connection error"), done_state).
Proof.
  clear Hpost. intros Hfail Hcls Hcls'.
  let H := fresh in pose proof Hacc as H; upload H Hfail.
  rewrite Hcls, Hcls'. cbn. leave.
Qed.
End Run.

(** ** Two ways to be told that the file is too large *)



(** ** The request *)

(** C9. A client built from [api_key] and [base_url] (the default when it
    is left out) issues, for an accepted file, exactly one request: a POST
    to the base URL without its trailing slashes followed by
    "/ocr/process", with the header [X-API-Key] set to [api_key], one file
    part named "file" whose file name is the base name of the path and
    whose content is the file object the call opened on that path, and a
    timeout of 60. *)
Theorem issued_request (repr : json → string) (env : Env)
    (key : string) (base_url : option string) (file_path : string)
    (text system_prompt : option string) (σ : State) :
  accepted env file_path →
  let self := __init__ key base_url in
  let base := default DEFAULT_BASE_URL base_url in
  ∃ req,
    sent (snd (process_document repr env self file_path text system_prompt σ))
      = (sent σ ++ [req])%list
    ∧ Request.method req = "POST"
    ∧ Request.url req = rstrip "/" base ++ "/ocr/process"
    ∧ (∃ k, base = rstrip "/" base ++ repeat_char "/" k)
    ∧ ends_with "/" (rstrip "/" base) = false
    ∧ Request.headers req = {[ "X-API-Key" := key ]}
    ∧ Request.files req
        = {[ "file" := (basename file_path, List.length (handles σ)) ]}
    ∧ name <$> handles (snd (process_document repr env self file_path text
                               system_prompt σ)) !! List.length (handles σ)
        = Some file_path
    ∧ Request.timeout req = 60.
Proof.
  intros Hacc self base.
  exists (upload_request self file_path text system_prompt
            (List.length (handles σ))).
  rewrite (accepted_final_state _ _ _ _ _ _ _ Hacc).
  split; [done|]. repeat split; try done.
  - apply rstrip_decompose.
  - apply rstrip_no_trailing.
  - cbn [after_upload handles]. by rewrite list_lookup_middle.
Qed.

(** ** Construction *)

(** C5, as the code has it.  [__init__] checks nothing: whatever string is
    given as the key, the empty one included, is stored and becomes the
    value of the [X-API-Key] header, and the client built is one whose
    calls go through. *)
Theorem init_accepts_any_key (repr : json → string) (env : Env)
    (key : string) (base_url : option string) (file_path : string)
    (text system_prompt : option string) (σ : State)
    (r : Response.t) (j : json) :
  let self := __init__ key base_url in
  accepted env file_path →
  transport env (upload_request self file_path text system_prompt
                   (List.length (handles σ))) = Responded r →
  Response.status_code r = 200 →
  Response.content r = Json j →
  api_key self = key
  ∧ headers self = {[ "X-API-Key" := key ]}
  ∧ process_document repr env self file_path text system_prompt σ
      = (Return j, after_upload self file_path text system_prompt σ).
Proof.
  intros self Hacc Hpost Hst Hc. repeat split.
  by apply (run_200 _ _ _ _ _ _ _ r).
Qed.

(** ** An unlisted status that is not an error status *)

(** C1, where the code departs from it.  For a 304 answer, and likewise
    for a 202 one, no branch of the status chain applies,
    [raise_for_status] has nothing to raise, and the call falls off the
    end of the function: it returns [None] instead of failing. *)
Theorem unlisted_status_returns_None :
  fst (process_document sample_repr
         (sample_env (answer 304 "Not Modified" (NotJson "Expecting value")))
         sample_client "scans/report.pdf" None None fresh_state)
    = Return JNull
  ∧ fst (process_document sample_repr
           (sample_env (answer 202 "Accepted" (Json sample_result)))
           sample_client "scans/report.pdf" None None fresh_state)
      = Return JNull.
Proof. split; vm_compute; reflexivity. Qed.

(** C5, as the claim states it, fails: the empty key builds a client like
    any other, and a call made with it returns the server's result. *)
Lemma empty_api_key_builds_usable_client :
  ∃ client,
    __init__ "" None = client
    ∧ api_key client = ""
    ∧ headers client !! "X-API-Key" = Some ""
    ∧ fst (process_document sample_repr
             (sample_env (answer 200 "OK" (Json sample_result)))
             client "scans/report.pdf" None None fresh_state)
        = Return sample_result.
Proof. eexists. split; [reflexivity|]. repeat split; vm_compute; reflexivity. Qed.

(** ** The statements at work in the sample world *)

Lemma sample_accepted (a : PostResult) (path : string) (size : Z) :
  sample_fs !! path = Some {| st_size := size; open_error := None |} →
  size ≤ 52428800 →
  accepted (sample_env a) path.
Proof.
  intros Hfs Hsz. eexists. split; [exact Hfs|]. split; [exact Hsz|reflexivity].
Defined.

Lemma missing_file_witness :
  process_document sample_repr (sample_env (answer 200 "OK" (Json sample_result)))
    sample_client "scans/none.pdf" None None fresh_state
  = (Raise (new_exn FileNotFoundError "File not found: scans/none.pdf"),
     fresh_state).
Proof.
  apply (missing_file_raises_FileNotFound sample_repr
           (sample_env (answer 200 "OK" (Json sample_result)))
           sample_client "scans/none.pdf" None None fresh_state).
  reflexivity.
Defined.

Lemma size_check_witness :
  process_document sample_repr (sample_env (answer 200 "OK" (Json sample_result)))
    sample_client "scans/huge.pdf" None None fresh_state
  = (Raise (new_exn ValueError "File too large: 50.00MB (max: 50MB)"),
     fresh_state)
  ∧ sent (snd (process_document sample_repr
                 (sample_env (answer 200 "OK" (Json sample_result)))
                 sample_client "scans/limit.pdf" None None fresh_state))
    = [upload_request sample_client "scans/limit.pdf" None None 0].
Proof.
  split.
  - apply (size_check sample_repr
             (sample_env (answer 200 "OK" (Json sample_result)))
             sample_client "scans/huge.pdf" None None fresh_state
             {| st_size := 52428801; open_error := None |});
      [reflexivity | simpl; lia].
  - rewrite (proj2 (size_check sample_repr
                      (sample_env (answer 200 "OK" (Json sample_result)))
                      sample_client "scans/limit.pdf" None None fresh_state
                      {| st_size := 52428800; open_error := None |}
                      eq_refl));
      [reflexivity | simpl; lia].
Defined.

Lemma ok_returns_parsed_body_witness :
  fst (process_document sample_repr
         (sample_env (answer 200 "OK" (Json sample_result)))
         sample_client "scans/report.pdf" (Some "Chest X-ray") None fresh_state)
  = Return sample_result.
Proof.
  assert (accepted (sample_env (answer 200 "OK" (Json sample_result)))
            "scans/report.pdf") as Hacc
    by (apply (sample_accepted _ _ 204800); [reflexivity | lia]).
  rewrite (ok_returns_parsed_body sample_repr _ sample_client
             "scans/report.pdf" (Some "Chest X-ray") None fresh_state
             (Response.mk 200 "OK" sample_url (Json sample_result))
             Hacc eq_refl sample_result eq_refl eq_refl).
  reflexivity.
Defined.

Lemma usage_limit_message_witness :
  fst (process_document sample_repr
         (sample_env (answer 429 "Too Many Requests"
            (Json (JObject {[ "detail" :=
                     JObject {[ "message" := JString "limit hit" ]} ]}))))
         sample_client "scans/report.pdf" None None fresh_state)
  = Raise (new_exn RequestException "Usage limit exceeded: limit hit")
  ∧ contains "Usage limit exceeded: limit hit" "limit hit"
  ∧ fst (process_document sample_repr
           (sample_env (answer 429 "Too Many Requests"
              (Json (JObject {[ "detail" := JString "x" ]}))))
           sample_client "scans/report.pdf" None None fresh_state)
    = Raise (new_exn RequestException "Usage limit exceeded").
Proof.
  pose (b1 := Json (JObject {[ "detail" :=
                      JObject {[ "message" := JString "limit hit" ]} ]})).
  pose (b2 := Json (JObject {[ "detail" := JString "x" ]})).
  assert (∀ a, accepted (sample_env a) "scans/report.pdf") as Hacc
    by (intros a; apply (sample_accepted _ _ 204800); [reflexivity | lia]).
  destruct (usage_limit_message sample_repr _ sample_client
              "scans/report.pdf" None None fresh_state
              (Response.mk 429 "Too Many Requests" sample_url b1)
              (Hacc _) eq_refl _ eq_refl eq_refl) as [Hmsg _].
  destruct (Hmsg {[ "message" := JString "limit hit" ]} (JString "limit hit")
              eq_refl eq_refl) as (Hrun & _ & Hin & _).
  destruct (usage_limit_message sample_repr _ sample_client
              "scans/report.pdf" None None fresh_state
              (Response.mk 429 "Too Many Requests" sample_url b2)
              (Hacc _) eq_refl _ eq_refl eq_refl) as [_ Hgen].
  destruct (Hgen (JString "x") eq_refl eq_refl) as [Hrun' _].
  split; [|split].
  - unfold answer. fold b1. rewrite Hrun. reflexivity.
  - exact Hin.
  - unfold answer. fold b2. rewrite Hrun'. reflexivity.
Defined.

Lemma error_bodies_witness :
  fst (process_document sample_repr
         (sample_env (answer 500 "Internal Server Error"
                        (NotJson "Expecting value")))
         sample_client "scans/report.pdf" None None fresh_state)
  = Raise (new_exn RequestException "Invalid JSON response")
  ∧ fst (process_document sample_repr
           (sample_env (answer 400 "Bad Request" (Json (JObject ∅))))
           sample_client "scans/report.pdf" None None fresh_state)
    = Raise (new_exn RequestException "Bad Request: Bad Request")
  ∧ fst (process_document sample_repr
           (sample_env (answer 413 "Payload Too Large" (NotJson "Expecting value")))
           sample_client "scans/report.pdf" None None fresh_state)
    = Raise (new_exn RequestException "File too large (max 50MB)").
Proof.
  assert (∀ a, accepted (sample_env a) "scans/report.pdf") as Hacc
    by (intros a; apply (sample_accepted _ _ 204800); [reflexivity | lia]).
  split; [|split].
  - destruct (error_bodies sample_repr _ sample_client
                "scans/report.pdf" None None fresh_state
                (Response.mk 500 "Internal Server Error" sample_url
                   (NotJson "Expecting value"))
                (Hacc _) eq_refl) as (Hbad & _).
    destruct (Hbad (or_intror (or_intror eq_refl)) _ eq_refl) as [Hrun _].
    unfold answer. rewrite Hrun. reflexivity.
  - destruct (error_bodies sample_repr _ sample_client
                "scans/report.pdf" None None fresh_state
                (Response.mk 400 "Bad Request" sample_url (Json (JObject ∅)))
                (Hacc _) eq_refl) as (_ & Hdef & _).
    destruct (Hdef ∅ eq_refl) as (H400 & _).
    unfold answer. rewrite (H400 eq_refl eq_refl). reflexivity.
  - destruct (error_bodies sample_repr _ sample_client
                "scans/report.pdf" None None fresh_state
                (Response.mk 413 "Payload Too Large" sample_url
                   (NotJson "Expecting value"))
                (Hacc _) eq_refl) as (_ & _ & _ & H413).
    destruct (H413 eq_refl) as [Hrun _].
    unfold answer. rewrite Hrun. reflexivity.
Defined.


Lemma issued_request_witness :
  ∃ req,
    sent (snd (process_document sample_repr
                 (sample_env (Failed (new_exn ReadTimeout "Read timed out.")))
                 (__init__ "mt_key" (Some "https://ocr.example/api//"))
                 "scans/report.pdf" (Some "Chest X-ray") None fresh_state))
      = [req]
    ∧ Request.method req = "POST"
    ∧ Request.url req = "https://ocr.example/api/ocr/process"
    ∧ Request.headers req = {[ "X-API-Key" := "mt_key" ]}
    ∧ Request.files req = {[ "file" := ("report.pdf", 0%nat) ]}
    ∧ Request.timeout req = 60.
Proof.
  assert (accepted (sample_env (Failed (new_exn ReadTimeout "Read timed out.")))
            "scans/report.pdf") as Hacc
    by (apply (sample_accepted _ _ 204800); [reflexivity | lia]).
  destruct (issued_request sample_repr _ "mt_key"
              (Some "https://ocr.example/api//") "scans/report.pdf"
              (Some "Chest X-ray") None fresh_state Hacc)
    as (req & Hsent & Hm & Hu & _ & _ & Hh & Hf & _ & Ht).
  exists req. repeat split; assumption.
Defined.

Lemma init_accepts_any_key_witness :
  api_key (__init__ "" None) = ""
  ∧ fst (process_document sample_repr
           (sample_env (answer 200 "OK" (Json sample_result)))
           (__init__ "" None) "scans/report.pdf" None None fresh_state)
    = Return sample_result.
Proof.
  assert (accepted (sample_env (answer 200 "OK" (Json sample_result)))
            "scans/report.pdf") as Hacc
    by (apply (sample_accepted _ _ 204800); [reflexivity | lia]).
  destruct (init_accepts_any_key sample_repr _ "" None "scans/report.pdf"
              None None fresh_state
              (Response.mk 200 "OK" sample_url (Json sample_result))
              sample_result Hacc eq_refl eq_refl eq_refl)
    as (Hk & _ & Hrun).
  split; [exact Hk|]. rewrite Hrun. reflexivity.
Defined.

(** * More of [process_document] *)

Section Outcomes.
Variable repr : json → string.
Variable env : Env.
Variable self : MeditrailOCRClient.
Variable file_path : string.
Variables text system_prompt : option string.
Variable σ : State.

Local Abbreviation run :=
  (process_document repr env self file_path text system_prompt σ).
Local Abbreviation request :=
  (upload_request self file_path text system_prompt (List.length (handles σ))).
Local Abbreviation done_state := (after_upload self file_path text system_prompt σ).

Ltac upload Hacc Hpost :=
  let H := fresh in
  pose proof Hacc as H;
  enter_upload H;
  change (transport env _) with (transport env request);
  rewrite Hpost; cbn.

Ltac leave :=
  cbn; eval_issubclass; cbn; rewrite ?alter_close_last; reflexivity.

Hypothesis Hacc : accepted env file_path.

Lemma run_ok_not_json (r : Response.t) (err : string) :
  transport env request = Responded r →
  Response.status_code r = 200 →
  Response.content r = NotJson err →
  run = (Raise (new_exn RequestException "Invalid JSON response"), done_state).
Proof.
  intros Hpost Hst Hc. upload Hacc Hpost. rewrite Hst. cbn.
  unfold response_json. rewrite Hc. cbn. leave.
Qed.

Lemma run_transport_other (e : pyexn) :
  transport env request = Failed e →
  issubclass (exn_class_of e) Timeout = false →
  issubclass (exn_class_of e) ConnectionError = false →
  issubclass (exn_class_of e) JSONDecodeError = false →
  run = (Raise e, done_state).
Proof.
  intros Hfail H1 H2 H3. upload Hacc Hfail.
  rewrite H1, H2, H3. cbn. leave.
Qed.

(** X1. When the transport raises a [requests] timeout, [ConnectTimeout]
    and [ReadTimeout] included, the call raises
    [RequestException("Request timed out")]; the request has been issued
    once and the file is closed.  This holds whatever else the exception
    is: a [ConnectTimeout] is also a [ConnectionError], but the [Timeout]
    clause comes first. *)
Theorem timeout_reported (e : pyexn) :
  transport env request = Failed e →
  issubclass (exn_class_of e) Timeout = true →
  let err := new_exn RequestException "Request timed out" in
  run = (Raise err, done_state)
  ∧ ApiError.kind_of err = Some ApiError.TimedOut.
Proof.
  intros Hfail Hcls err. split; [|done].
  by apply (run_timeout _ _ _ _ _ _ _ Hacc e).
Qed.

(** X2. When the transport raises a [requests] connection error that is
    not a timeout ([ConnectionError], [ProxyError], [SSLError]), the call
    raises [RequestException("Connection error")]; the original exception
    and its message are not passed on. *)
Theorem connection_error_reported (e : pyexn) :
  transport env request = Failed e →
  issubclass (exn_class_of e) Timeout = false →
  issubclass (exn_class_of e) ConnectionError = true →
  let err := new_exn RequestException "Connection error" in
  run = (Raise err, done_state)
  ∧ ApiError.kind_of err = Some ApiError.ConnectionFailed.
Proof.
  intros Hfail H1 H2 err. split; [|done].
  by apply (run_connection_error _ _ _ _ _ _ _ Hacc e).
Qed.

(** X3. Any other exception of the transport (one that is no [Timeout],
    [ConnectionError] or [JSONDecodeError], such as [TooManyRedirects] or
    [MissingSchema]) leaves the call as it is, unchanged; the file is
    closed all the same. *)
Theorem other_transport_error_propagates (e : pyexn) :
  transport env request = Failed e →
  issubclass (exn_class_of e) Timeout = false →
  issubclass (exn_class_of e) ConnectionError = false →
  issubclass (exn_class_of e) JSONDecodeError = false →
  run = (Raise e, done_state)
  ∧ handles done_state = (handles σ ++ [closed_upload file_path])%list.
Proof.
  intros Hfail H1 H2 H3. split; [|done]. by apply run_transport_other.
Qed.

(** X4. A 200 answer whose body does not decode makes the call raise
    [RequestException("Invalid JSON response")]: success is reported only
    for a body that parses. *)
Theorem ok_with_undecodable_body (r : Response.t) (err : string) :
  transport env request = Responded r →
  Response.status_code r = 200 →
  Response.content r = NotJson err →
  let e := new_exn RequestException "Invalid JSON response" in
  run = (Raise e, done_state)
  ∧ ApiError.kind_of e = Some ApiError.InvalidResponse.
Proof.
  intros Hpost Hst Hc e. split; [|done]. by apply (run_ok_not_json r err).
Qed.

(** X5. A 400, 429 or 500 answer whose body is valid JSON but not an
    object (a list, a string, a number, [null], ...) makes the call raise
    the [AttributeError] of the failed [.get], which is not a
    [requests.RequestException] and is none of the spec's kinds. *)
Theorem non_object_error_body (r : Response.t) (j : json) :
  transport env request = Responded r →
  json_error_status (Response.status_code r) →
  Response.content r = Json j →
  isinstance_dict j = false →
  let e := new_exn AttributeError
             ("'" ++ type_name j ++ "' object has no attribute 'get'") in
  run = (Raise e, done_state)
  ∧ issubclass (exn_class_of e) RequestException = false
  ∧ ApiError.kind_of e = None.
Proof.
  intros Hpost Hst Hc Hj e. split; [|done].
  by apply (run_not_dict _ _ _ _ _ _ _ r Hacc Hpost j).
Qed.

(** X6. An answer with a status in 400..599 other than 400, 413, 429 and
    500 makes the call raise the [HTTPError] of [raise_for_status], which
    carries the response and so its status. *)
Theorem unlisted_error_status (r : Response.t) :
  transport env request = Responded r →
  Response.status_code r ∉ [200; 400; 413; 429; 500] →
  400 ≤ Response.status_code r < 600 →
  ∃ e, run = (Raise e, done_state)
       ∧ exn_class_of e = HTTPError
       ∧ exn_response e = Some r
       ∧ ApiError.kind_of e
           = Some (ApiError.HttpError (Response.status_code r)).
Proof.
  intros Hpost Hst Hrange.
  destruct (run_unlisted_error repr _ _ _ _ _ _ r Hacc Hpost Hst Hrange)
    as [msg Hrun].
  by eexists.
Qed.

Lemma run_transport_json (e : pyexn) :
  transport env request = Failed e →
  issubclass (exn_class_of e) Timeout = false →
  issubclass (exn_class_of e) ConnectionError = false →
  issubclass (exn_class_of e) JSONDecodeError = true →
  run = (Raise (new_exn RequestException "Invalid JSON response"), done_state).
Proof.
  intros Hfail H1 H2 H3. upload Hacc Hfail.
  rewrite H1, H2, H3. cbn. leave.
Qed.

Lemma run_unlisted_http_error (r : Response.t) :
  transport env request = Responded r →
  Response.status_code r ∉ [200; 400; 413; 429; 500] →
  400 ≤ Response.status_code r < 600 →
  run = (Raise (Exn HTTPError
                  (pretty (Response.status_code r)
                     ++ (if Response.status_code r <? 500
                         then " Client Error: " else " Server Error: ")
                     ++ Response.reason r ++ " for url: " ++ Response.url r)
                  (Some r)),
         done_state).
Proof.
  intros Hpost Hst Hrange. upload Hacc Hpost.
  destruct (unlisted_status _ Hst) as (H200 & H400 & H413 & H429 & H500).
  rewrite !(proj2 (Z.eqb_neq (Response.status_code r) _)) by done.
  unfold raise_for_status.
  destruct (Z.ltb_spec (Response.status_code r) 500).
  - rewrite (proj2 (Z.leb_le 400 _)) by lia. cbn [andb].
    rewrite bool_decide_eq_false_2
      by (destruct (pretty (Response.status_code r)); discriminate).
    leave.
  - rewrite andb_false_r.
    rewrite (proj2 (Z.leb_le 500 _)), (proj2 (Z.ltb_lt _ 600)) by lia.
    cbn [andb].
    rewrite bool_decide_eq_false_2
      by (destruct (pretty (Response.status_code r)); discriminate).
    leave.
Qed.

(** The status errors, body by body. *)
Lemma run_error_status (r : Response.t) :
  transport env request = Responded r →
  json_error_status (Response.status_code r) →
  ∃ e, run = (Raise e, done_state).
Proof.
  intros Hpost Hst.
  destruct (Response.content r) as [j|err] eqn:Hc.
  - destruct (isinstance_dict j) eqn:Hj.
    + destruct j as [| | | | | |m]; try discriminate Hj.
      destruct Hst as [Hst | [Hst | Hst]].
      * eexists. by apply (run_400 _ _ _ _ _ _ _ r Hacc Hpost m).
      * destruct (default (JObject ∅) (m !! "detail")) as [| | | | | |d] eqn:Hd.
        7: { eexists. by apply (run_429_dict _ _ _ _ _ _ _ r Hacc Hpost m d). }
        all: destruct (m !! "detail") as [d|] eqn:Hm; simpl in Hd;
          [subst d|discriminate Hd].
        all: eexists;
          by apply (run_429_other _ _ _ _ _ _ _ r Hacc Hpost m _ Hst Hc Hm).
      * eexists. by apply (run_500 _ _ _ _ _ _ _ r Hacc Hpost m).
    + eexists. by apply (run_not_dict _ _ _ _ _ _ _ r Hacc Hpost j).
  - eexists. by apply (run_not_json _ _ _ _ _ _ _ r Hacc Hpost err).
Qed.

(** X7. The call returns a value in two cases only: a 200 answer whose
    body parses (the parsed body), and an answer whose status is neither
    200 nor in 400..599 ([None]).  For every status in 400..599 it raises,
    whatever the body. *)
Theorem returns_only_for (r : Response.t) :
  transport env request = Responded r →
  (∀ v σ', run = (Return v, σ') →
     (Response.status_code r = 200 ∧ Response.content r = Json v)
     ∨ (Response.status_code r ≠ 200
        ∧ ¬ (400 ≤ Response.status_code r < 600)
        ∧ v = JNull))
  ∧ (400 ≤ Response.status_code r < 600 → ∃ e, run = (Raise e, done_state)).
Proof.
  intros Hpost.
  assert (400 ≤ Response.status_code r < 600 → ∃ e, run = (Raise e, done_state))
    as Herr.
  { intros Hrange.
    destruct (decide (Response.status_code r ∈ [200; 400; 413; 429; 500]))
      as [Hin|Hout].
    - rewrite !elem_of_cons, elem_of_nil in Hin.
      destruct Hin as [H | [H | [H | [H | [H | []]]]]].
      + lia.
      + apply (run_error_status r); [done|]. by left.
      + eexists. by apply (run_413 _ _ _ _ _ _ _ r).
      + apply (run_error_status r); [done|]. right. by left.
      + apply (run_error_status r); [done|]. right. by right.
    - eexists. by apply (run_unlisted_http_error r). }
  split; [|exact Herr].
  intros v σ' Hrun.
  destruct (decide (Response.status_code r = 200)) as [H200|H200].
  - left. split; [done|].
    destruct (Response.content r) as [j|err] eqn:Hc.
    + rewrite (run_200 _ _ _ _ _ _ _ r Hacc Hpost j H200 Hc) in Hrun.
      by simplify_eq.
    + by rewrite (run_ok_not_json r err Hpost H200 Hc) in Hrun.
  - right. split; [done|].
    destruct (decide (400 ≤ Response.status_code r < 600)) as [Hrange|Hrange].
    + destruct (Herr Hrange) as [e He]. by rewrite He in Hrun.
    + split; [done|].
      assert (Response.status_code r ∉ [200; 400; 413; 429; 500]) as Hout
        by (rewrite !not_elem_of_cons; repeat split; try lia; apply not_elem_of_nil).
      rewrite (run_unlisted_quiet _ _ _ _ _ _ _ r Hacc Hpost Hout Hrange) in Hrun.
      by simplify_eq.
Qed.

(** X8. The form fields of the request: [text] and [system_prompt] are
    sent when they are non-empty strings and left out when they are [None]
    or empty, and no other field is sent. *)
Theorem form_fields :
  sent (snd run) = (sent σ ++ [request])%list
  ∧ Request.data request !! "text" = nonempty text
  ∧ Request.data request !! "system_prompt" = nonempty system_prompt
  ∧ ∀ k, k ≠ "text" → k ≠ "system_prompt" → Request.data request !! k = None.
Proof.
  split; [by rewrite (accepted_final_state _ _ _ _ _ _ _ Hacc)|].
  unfold upload_request, set_if_truthy, nonempty. cbn [Request.data].
  repeat split; [| |intros k Hk1 Hk2];
    destruct text as [t|], system_prompt as [p|];
    repeat case_bool_decide; by simplify_map_eq.
Qed.

(** X9. Of the path only its last component is sent as the file name: the
    name has no ['/'] in it and the path is a directory prefix, empty or
    ending in ['/'], followed by it. *)
Theorem filename_is_last_component :
  ∃ fname dir,
    sent (snd run) = (sent σ ++ [request])%list
    ∧ Request.files request !! "file" = Some (fname, List.length (handles σ))
    ∧ file_path = dir ++ fname
    ∧ (dir = "" ∨ ends_with "/" dir = true)
    ∧ rfind "/" fname = -1.
Proof.
  destruct (basename_decompose file_path) as (dir & Hp & Hdir & Hb).
  exists (basename file_path), dir.
  split; [by rewrite (accepted_final_state _ _ _ _ _ _ _ Hacc)|].
  split; [|done]. unfold upload_request. cbn [Request.files].
  by rewrite lookup_singleton_eq.
Qed.
End Outcomes.

Section History.
Variable repr : json → string.
Variable env : Env.
Variable self : MeditrailOCRClient.
Variable file_path : string.
Variables text system_prompt : option string.

Local Abbreviation run :=
  (process_document repr env self file_path text system_prompt).
Local Abbreviation request :=
  (λ σ, upload_request self file_path text system_prompt
          (List.length (handles σ))).
Local Abbreviation done_state := (after_upload self file_path text system_prompt).

(** For an accepted file, what the call returns or raises is decided by
    the transport's answer alone. *)
Lemma answer_decides (a : PostResult) :
  accepted env file_path →
  ∃ res, ∀ σ, transport env (request σ) = a → run σ = (res, done_state σ).
Proof.
  intros Hacc. destruct a as [r|e].
  - destruct (decide (Response.status_code r = 200)) as [H200|H200].
    { destruct (Response.content r) as [j|err] eqn:Hc.
      - eexists. intros σ Ha. by apply (run_200 _ _ _ _ _ _ _ r).
      - eexists. intros σ Ha. by apply (run_ok_not_json _ _ _ _ _ _ _ Hacc r err). }
    destruct (decide (Response.status_code r = 413)) as [H413|H413].
    { eexists. intros σ Ha. by apply (run_413 _ _ _ _ _ _ _ r). }
    destruct (decide (json_error_status (Response.status_code r)))
      as [Hst|Hst].
    { destruct (Response.content r) as [j|err] eqn:Hc.
      - destruct (isinstance_dict j) eqn:Hj.
        + destruct j as [| | | | | |m]; try discriminate Hj.
          destruct Hst as [Hst | [Hst | Hst]].
          * eexists. intros σ Ha. by apply (run_400 _ _ _ _ _ _ _ r Hacc Ha m).
          * destruct (default (JObject ∅) (m !! "detail"))
              as [| | | | | |d] eqn:Hd.
            7: { eexists. intros σ Ha.
                 by apply (run_429_dict _ _ _ _ _ _ _ r Hacc Ha m d). }
            all: destruct (m !! "detail") as [d|] eqn:Hm; simpl in Hd;
              [subst d|discriminate Hd].
            all: eexists; intros σ Ha;
              by apply (run_429_other _ _ _ _ _ _ _ r Hacc Ha m _ Hst Hc Hm).
          * eexists. intros σ Ha. by apply (run_500 _ _ _ _ _ _ _ r Hacc Ha m).
        + eexists. intros σ Ha.
          by apply (run_not_dict _ _ _ _ _ _ _ r Hacc Ha j).
      - eexists. intros σ Ha.
        by apply (run_not_json _ _ _ _ _ _ _ r Hacc Ha err). }
    assert (Response.status_code r ∉ [200; 400; 413; 429; 500]) as Hout.
    { unfold json_error_status in Hst. rewrite !not_elem_of_cons.
      repeat split; try tauto. apply not_elem_of_nil. }
    destruct (decide (400 ≤ Response.status_code r < 600)) as [Hrange|Hrange].
    + eexists. intros σ Ha.
      by apply (run_unlisted_http_error _ _ _ _ _ _ _ Hacc r).
    + eexists. intros σ Ha. by apply (run_unlisted_quiet _ _ _ _ _ _ _ r).
  - destruct (issubclass (exn_class_of e) Timeout) eqn:H1.
    { eexists. intros σ Ha. by apply (run_timeout _ _ _ _ _ _ _ Hacc e). }
    destruct (issubclass (exn_class_of e) ConnectionError) eqn:H2.
    { eexists. intros σ Ha.
      by apply (run_connection_error _ _ _ _ _ _ _ Hacc e). }
    destruct (issubclass (exn_class_of e) JSONDecodeError) eqn:H3.
    + eexists. intros σ Ha. by apply (run_transport_json _ _ _ _ _ _ _ Hacc e).
    + eexists. intros σ Ha. by apply (run_transport_other _ _ _ _ _ _ _ Hacc e).
Qed.

(** When the local checks reject the path the call raises and leaves the
    state as it found it. *)
Lemma run_rejected (σ : State) :
  ¬ accepted env file_path → ∃ e, run σ = (Raise e, σ).
Proof.
  intros Hrej. destruct (fs env !! file_path) as [st|] eqn:Hfs.
  - destruct (Z.ltb_spec 52428800 (st_size st)) as [Hbig|Hsmall].
    + eexists. by apply (run_oversize _ _ _ _ _ _ _ st).
    + destruct (open_error st) as [e|] eqn:Hop.
      * exists e. by apply (run_open_fails _ _ _ _ _ _ _ st).
      * destruct Hrej. by exists st.
  - eexists. apply run_missing.
    unfold os_path_exists. rewrite Hfs. apply bool_decide_eq_false_2.
    by intros [? ?].
Qed.

Lemma run_rejected_result (σ1 σ2 : State) :
  ¬ accepted env file_path → fst (run σ1) = fst (run σ2).
Proof.
  intros Hrej. destruct (fs env !! file_path) as [st|] eqn:Hfs.
  - destruct (Z.ltb_spec 52428800 (st_size st)) as [Hbig|Hsmall].
    + by rewrite !(run_oversize _ _ _ _ _ _ _ st Hfs Hbig).
    + destruct (open_error st) as [e|] eqn:Hop.
      * by rewrite !(run_open_fails _ _ _ _ _ _ _ st e Hfs Hsmall Hop).
      * destruct Hrej. by exists st.
  - assert (os_path_exists env file_path = false) as Hex.
    { unfold os_path_exists. rewrite Hfs. apply bool_decide_eq_false_2.
      by intros [? ?]. }
    by rewrite !(run_missing _ _ _ _ _ _ _ Hex).
Qed.

Lemma accepted_dec : accepted env file_path ∨ ¬ accepted env file_path.
Proof.
  destruct (fs env !! file_path) as [st|] eqn:Hfs.
  - destruct (Z.ltb_spec 52428800 (st_size st)) as [Hbig|Hsmall].
    + right. intros (st' & Hfs' & Hsz & _). simplify_eq. lia.
    + destruct (open_error st) as [e|] eqn:Hop.
      * right. intros (st' & Hfs' & _ & Hop'). simplify_eq.
      * left. by exists st.
  - right. intros (st' & Hfs' & _). simplify_eq.
Qed.

(** X10. A call sends one request or none, never more: exactly one when
    the local checks accept the path, and otherwise it raises and leaves
    the state, open files and request log, exactly as it found it. *)
Theorem one_request_or_none (σ : State) :
  (accepted env file_path
   ∧ sent (snd (run σ)) = (sent σ ++ [request σ])%list)
  ∨ (¬ accepted env file_path ∧ ∃ e, run σ = (Raise e, σ)).
Proof.
  destruct accepted_dec as [Hacc|Hrej].
  - left. split; [done|]. by rewrite (accepted_final_state _ _ _ _ _ _ _ Hacc).
  - right. split; [done|]. by apply run_rejected.
Qed.

(** X11. Nothing is remembered from one call to the next: what a call
    returns or raises does not depend on the files opened and the requests
    sent before it, only on what the transport answers to its request. *)
Theorem outcome_ignores_history (σ1 σ2 : State) :
  transport env (request σ1) = transport env (request σ2) →
  fst (run σ1) = fst (run σ2).
Proof.
  intros Heq. destruct accepted_dec as [Hacc|Hrej].
  - destruct (answer_decides (transport env (request σ1)) Hacc) as [res Hres].
    by rewrite (Hres σ1 eq_refl), (Hres σ2 (eq_sym Heq)).
  - by apply run_rejected_result.
Qed.
End History.

(** * More of [__init__] *)

Lemma rstrip_repeat_char (c : ascii) (n : nat) : rstrip c (repeat_char c n) = "".
Proof.
  induction n as [|n IH]; [done|].
  cbn [repeat_char rstrip]. rewrite IH. by rewrite Ascii.eqb_refl.
Qed.

Lemma rstrip_app_repeat (c : ascii) (s : string) (n : nat) :
  rstrip c (s ++ repeat_char c n) = rstrip c s.
Proof.
  induction s as [|a r IH].
  - rewrite append_nil_l. apply rstrip_repeat_char.
  - rewrite append_cons. cbn [rstrip]. by rewrite IH.
Qed.

Lemma rstrip_fixed (c : ascii) (s : string) :
  ends_with c s = false → rstrip c s = s.
Proof.
  induction s as [|a r IH]; [done|].
  intros Hend. cbn [rstrip]. destruct r as [|b u].
  - cbn in Hend |- *. by rewrite Hend.
  - rewrite IH by exact Hend. done.
Qed.

(** X12. Trailing slashes of the base URL make no difference: adding any
    number of them gives the same client, and so does building a client
    again from the base URL a client has stored. *)
Theorem trailing_slashes_make_no_difference (key base : string) (n : nat) :
  __init__ key (Some (base ++ repeat_char "/" n)) = __init__ key (Some base)
  ∧ __init__ key (Some (base_url (__init__ key (Some base))))
    = __init__ key (Some base).
Proof.
  unfold __init__. cbn [default base_url]. unfold id. split.
  - by rewrite rstrip_app_repeat.
  - by rewrite (rstrip_fixed _ _ (rstrip_no_trailing "/" base)).
Qed.

(** * The demo *)

Lemma io_bind_run {A B} (c : IO A) (k : A → IO B) (p : Process) :
  (c ≫= k) p =
  match c p with
  | (Done a, p') => k a p'
  | (Died e, p') => (Died e, p')
  end.
Proof. reflexivity. Qed.

Lemma every_class_is_an_Exception (c : exn_class) : issubclass c Exception = true.
Proof. by destruct c. Qed.

Lemma is_Exception_always (e : demo_exn) : is_Exception e = true.
Proof. destruct e; [apply every_class_is_an_Exception|done|done]. Qed.

Lemma quiet_mret {A} (a : A) : quiet (mret a : IO A).
Proof. intros [out w]. exists []. cbn. by rewrite app_nil_r. Qed.

Lemma quiet_die {A} (e : demo_exn) : quiet (die e : IO A).
Proof. intros [out w]. exists []. cbn. by rewrite app_nil_r. Qed.

Lemma quiet_print (line : string) : quiet (print line).
Proof. intros p. by exists [line]. Qed.

Lemma quiet_lift {A} (c : M A) : stateless c → quiet (lift c).
Proof.
  intros Hc [out w]. exists []. unfold lift. cbn.
  specialize (Hc w). destruct (c w) as [[a|e] w']; cbn in *; subst w';
    by rewrite app_nil_r.
Qed.

Lemma quiet_bind {A B} (c : IO A) (k : A → IO B) :
  quiet c → (∀ a, quiet (k a)) → quiet (c ≫= k).
Proof.
  intros Hc Hk p. rewrite io_bind_run.
  destruct (Hc p) as [out Hout]. destruct (c p) as [[a|e] p']; cbn in Hout.
  - destruct (Hk a p') as [out' Hout']. exists (out ++ out')%list.
    rewrite Hout'. subst p'. cbn. by rewrite app_assoc.
  - exists out. by subst p'.
Qed.

Lemma quiet_loads (json_loads : string → body) (v : json) :
  quiet (loads json_loads v).
Proof.
  unfold loads. destruct v; try apply quiet_die.
  destruct (json_loads s); [apply quiet_mret|apply quiet_die].
Qed.

Ltac solve_quiet :=
  repeat first
    [ apply quiet_print
    | apply quiet_mret
    | apply quiet_die
    | apply quiet_loads
    | apply quiet_lift; apply stateless_get
    | apply quiet_bind; [|intros ?] ].

Section DemoFacts.
Variable repr : json → string.
Variable json_loads : string → body.
Variable env : Env.

Local Abbreviation client := (__init__ API_KEY None).
Local Abbreviation xray := "sample_files/chest_xray.jpg".
Local Abbreviation xray_text := (Some "Chest X-ray examination").
Local Abbreviation xray_prompt :=
  (Some "Extract key clinical findings and abnormalities").
Local Abbreviation pdf := "sample_files/prescription.pdf".
Local Abbreviation pdf_text := (Some "Prescription document").
Local Abbreviation pdf_prompt :=
  (Some "Extract medication names, dosages, and doctor information").
Local Abbreviation header_1 := "=== Example 1: Processing Medical Image ===".
Local Abbreviation header_2 := "=== Example 2: Processing PDF Document ===".

(** The world after a call of the client: untouched, or one closed file
    and one request further. *)
Lemma world_after_call (c : MeditrailOCRClient) (path : string)
    (t sp : option string) (w : State) :
  let w' := snd (process_document repr env c path t sp w) in
  w' = w ∨ (accepted env path ∧ w' = after_upload c path t sp w).
Proof.
  destruct (accepted_dec env path) as [Hacc|Hrej].
  - right. split; [done|]. by apply accepted_final_state.
  - left. destruct (run_rejected repr env c path t sp w Hrej) as [e He].
    cbn. by rewrite He.
Qed.

(** One [try] statement of [main]: it always completes, having added to
    the output and made at most one call of the client. *)
Lemma try_example (c : MeditrailOCRClient) (path : string)
    (t sp : option string) (rest : json → IO unit) (notfound : IO unit)
    (p : Process) :
  (∀ v, quiet (rest v)) →
  quiet notfound →
  ∃ out w,
    try_except_Exception
      (if os_path_exists env path
       then lift (process_document repr env c path t sp) ≫= rest
       else notfound)
      (fun e => print ("Error processing document: " ++ demo_str e)) p
    = (Done (), {| stdout := (stdout p ++ out)%list; world := w |})
    ∧ (w = world p ∨ (accepted env path ∧ w = after_upload c path t sp (world p))).
Proof.
  intros Hrest Hnot. unfold try_except_Exception.
  destruct (os_path_exists env path).
  - rewrite io_bind_run. unfold lift at 1.
    pose proof (world_after_call c path t sp (world p)) as Hw. cbn zeta in Hw.
    destruct (process_document repr env c path t sp (world p)) as [[v|e] w].
    + destruct (Hrest v {| stdout := stdout p; world := w |}) as [out Hout].
      destruct (rest v _) as [[[]|e] p']; cbn in Hout; subst p'.
      * by exists out, w.
      * rewrite is_Exception_always.
        exists (out ++ [("Error processing document: " ++ demo_str e)%string])%list, w.
        split; [|done]. unfold print. cbn. by rewrite app_assoc.
    + rewrite is_Exception_always.
      exists ["Error processing document: " ++ demo_str (PyExn e)], w.
      by split.
  - destruct (Hnot p) as [out Hout].
    destruct (notfound p) as [[[]|e] p']; cbn in Hout; subst p'.
    + exists out, (world p). split; [done|by left].
    + rewrite is_Exception_always.
      exists (out ++ [("Error processing document: " ++ demo_str e)%string])%list,
        (world p).
      split; [|by left]. unfold print. cbn. by rewrite app_assoc.
Qed.

Lemma main_example_1_completes (p : Process) :
  ∃ out w,
    main_example_1 repr json_loads env client p
    = (Done (), {| stdout := (stdout p ++ out)%list; world := w |})
    ∧ (w = world p
       ∨ (accepted env xray
          ∧ w = after_upload client xray xray_text xray_prompt (world p))).
Proof.
  unfold main_example_1, main_example_1_with. cbv zeta.
  apply try_example; [intros ?|]; solve_quiet.
Qed.

Lemma main_example_2_completes (p : Process) :
  ∃ out w,
    main_example_2 repr json_loads env client p
    = (Done (), {| stdout := (stdout p ++ out)%list; world := w |})
    ∧ (w = world p
       ∨ (accepted env pdf
          ∧ w = after_upload client pdf pdf_text pdf_prompt (world p))).
Proof.
  unfold main_example_2, main_example_2_with. cbv zeta.
  apply try_example; [intros ?|]; solve_quiet.
Qed.

(** [main], once its first example is through. *)
Lemma main_after_example_1 (p : Process) (out1 : list string) (w1 : State) :
  main_example_1 repr json_loads env client
    {| stdout := (stdout p ++ [header_1])%list; world := world p |}
  = (Done (), {| stdout := (stdout p ++ [header_1] ++ out1)%list; world := w1 |}) →
  ∃ out2 w2,
    main repr json_loads env p
    = (Done (),
       {| stdout := (stdout p ++ [header_1] ++ out1
                       ++ [separator; header_2] ++ out2)%list;
          world := w2 |})
    ∧ (w2 = w1
       ∨ (accepted env pdf
          ∧ w2 = after_upload client pdf pdf_text pdf_prompt w1)).
Proof.
  intros H1. unfold main, main_with. cbv zeta.
  fold (main_example_1 repr json_loads env).
  fold (main_example_2 repr json_loads env).
  rewrite io_bind_run. cbn [print stdout world].
  rewrite io_bind_run, H1.
  rewrite io_bind_run. cbn [print stdout world].
  rewrite io_bind_run. cbn [print stdout world].
  destruct (main_example_2_completes
              {| stdout := (((stdout p ++ [header_1] ++ out1) ++ [separator])
                              ++ [header_2])%list;
                 world := w1 |}) as (out2 & w2 & H2 & Hw2).
  exists out2, w2. split; [|exact Hw2].
  fold separator. rewrite H2. cbn [stdout]. do 2 f_equal.
  by rewrite <- !app_assoc.
Qed.

Lemma main_shape (p : Process) :
  ∃ out1 out2 w1 w2,
    main repr json_loads env p
    = (Done (),
       {| stdout := (stdout p ++ [header_1] ++ out1
                       ++ [separator; header_2] ++ out2)%list;
          world := w2 |})
    ∧ (w1 = world p
       ∨ (accepted env xray
          ∧ w1 = after_upload client xray xray_text xray_prompt (world p)))
    ∧ (w2 = w1
       ∨ (accepted env pdf
          ∧ w2 = after_upload client pdf pdf_text pdf_prompt w1)).
Proof.
  destruct (main_example_1_completes
              {| stdout := (stdout p ++ [header_1])%list; world := world p |})
    as (out1 & w1 & H1 & Hw1).
  cbn [stdout world] in H1, Hw1. rewrite <- app_assoc in H1.
  destruct (main_after_example_1 p out1 w1 H1) as (out2 & w2 & H2 & Hw2).
  by exists out1, out2, w1, w2.
Qed.

(** X14. [main] leaves no file open and sends at most two requests: the
    file objects it created are all closed when it is done, there is one
    per request sent, and there are at most two. *)
Theorem main_leaves_no_file_open (p : Process) :
  ∃ hs rs,
    handles (world (snd (main repr json_loads env p)))
      = (handles (world p) ++ hs)%list
    ∧ Forall (λ f, closed f = true) hs
    ∧ sent (world (snd (main repr json_loads env p)))
        = (sent (world p) ++ rs)%list
    ∧ List.length rs = List.length hs
    ∧ (List.length hs ≤ 2)%nat.
Proof.
  destruct (main_shape p) as (out1 & out2 & w1 & w2 & Hmain & Hw1 & Hw2).
  rewrite Hmain. cbn [snd world].
  destruct Hw1 as [-> | [_ ->]], Hw2 as [-> | [_ ->]]; cbn [after_upload handles sent].
  - exists [], []. rewrite !app_nil_r. repeat split; auto.
  - eexists [_], [_]. repeat split; auto.
  - eexists [_], [_]. repeat split; auto.
  - eexists [_; _], [_; _]. rewrite <- !app_assoc. repeat split; auto.
Qed.

(** X15. Without the two sample files [main] touches nothing: it opens no
    file, sends no request, and prints the seven lines that say so. *)
Theorem main_without_samples (p : Process) :
  os_path_exists env xray = false →
  os_path_exists env pdf = false →
  main repr json_loads env p
  = (Done (),
     {| stdout :=
          (stdout p
             ++ [header_1;
                 "Sample file not found: sample_files/chest_xray.jpg";
                 "Please add a sample medical document to test with.";
                 separator;
                 header_2;
                 "Sample file not found: sample_files/prescription.pdf";
                 "Please add a sample PDF document to test with."])%list;
        world := world p |}).
Proof.
  intros H1 H2. unfold main, main_with, main_example_1_with,
    main_example_2_with, try_except_Exception. cbv zeta. rewrite H1, H2.
  unfold mbind, IO_bind, print. cbn. by rewrite <- !app_assoc.
Qed.

Ltac enter_example_1 Hex Hrun :=
  unfold main_example_1, main_example_1_with, try_except_Exception;
  cbv zeta; rewrite Hex;
  rewrite io_bind_run; unfold lift at 1; cbn [world]; rewrite Hrun.

(** X17. When the call of example 1 returns something that is not a
    dictionary ([None] for a 202 or 304 answer, a list, a string, ...),
    the first [result.get] fails and the only output of example 1 is the
    error line with the [AttributeError]'s message. *)
Theorem main_result_not_a_dict (p : Process) (v : json) (w1 : State) :
  os_path_exists env xray = true →
  process_document repr env client xray xray_text xray_prompt (world p)
    = (Return v, w1) →
  isinstance_dict v = false →
  ∃ out2 w2,
    main repr json_loads env p
    = (Done (),
       {| stdout :=
            (stdout p
               ++ [header_1;
                   ("Error processing document: '" ++ type_name v
                      ++ "' object has no attribute 'get'")%string;
                   separator; header_2] ++ out2)%list;
          world := w2 |}).
Proof.
  intros Hex Hrun Hv.
  destruct (main_after_example_1 p
              [("Error processing document: '" ++ type_name v
                  ++ "' object has no attribute 'get'")%string] w1)
    as (out2 & w2 & Hmain & _).
  - enter_example_1 Hex Hrun.
    destruct v; try discriminate Hv;
      unfold mbind, IO_bind, lift, print; cbn; by rewrite <- !app_assoc.
  - by exists out2, w2.
Qed.

(** X18. When the result of example 1 is a dictionary whose [response]
    field is not a string, [json.loads] raises [TypeError]: example 1
    prints its first three lines and then the error line. *)
Theorem main_response_not_a_string (p : Process) (m : gmap string json)
    (v : json) (w1 : State) :
  os_path_exists env xray = true →
  process_document repr env client xray xray_text xray_prompt (world p)
    = (Return (JObject m), w1) →
  m !! "response" = Some v →
  (∀ s, v ≠ JString s) →
  ∃ out2 w2,
    main repr json_loads env p
    = (Done (),
       {| stdout :=
            (stdout p
               ++ [header_1;
                   ("Success! Document ID: "
                      ++ str repr (default JNull (m !! "id")))%string;
                   ("Clinical Relevance: "
                      ++ str repr (default JNull (m !! "clinical_relevance")))%string;
                   ("Doctor Names: "
                      ++ str repr (default JNull (m !! "doctor_names")))%string;
                   ("Error processing document: "
                      ++ "the JSON object must be str, bytes or bytearray, not "
                      ++ type_name v)%string;
                   separator; header_2] ++ out2)%list;
          world := w2 |}).
Proof.
  intros Hex Hrun Hm Hv.
  destruct (main_after_example_1 p
              [("Success! Document ID: "
                  ++ str repr (default JNull (m !! "id")))%string;
               ("Clinical Relevance: "
                  ++ str repr (default JNull (m !! "clinical_relevance")))%string;
               ("Doctor Names: "
                  ++ str repr (default JNull (m !! "doctor_names")))%string;
               ("Error processing document: "
                  ++ "the JSON object must be str, bytes or bytearray, not "
                  ++ type_name v)%string] w1)
    as (out2 & w2 & Hmain & _); [|by exists out2, w2].
  enter_example_1 Hex Hrun.
  unfold mbind, IO_bind, lift, print, get, mret, M_ret. cbn.
  rewrite Hm. cbn.
  destruct v; try (by destruct (Hv s)); cbn; by rewrite <- !app_assoc.
Qed.

(** X19. When the result of example 1 is a dictionary whose [response]
    decodes to a dictionary, example 1 prints eight lines; a field that is
    missing is printed as [None], a missing [document_type] or [summary]
    as "N/A", and a missing [response] counts as the empty object "{}". *)
Theorem main_prints_result (p : Process) (m rd md : gmap string json)
    (s : string) (w1 : State) :
  os_path_exists env xray = true →
  process_document repr env client xray xray_text xray_prompt (world p)
    = (Return (JObject m), w1) →
  default (JString "{}") (m !! "response") = JString s →
  json_loads s = Json (JObject rd) →
  default (JObject ∅) (m !! "metadata") = JObject md →
  ∃ out2 w2,
    main repr json_loads env p
    = (Done (),
       {| stdout :=
            (stdout p
               ++ [header_1;
                   ("Success! Document ID: "
                      ++ str repr (default JNull (m !! "id")))%string;
                   ("Clinical Relevance: "
                      ++ str repr (default JNull (m !! "clinical_relevance")))%string;
                   ("Doctor Names: "
                      ++ str repr (default JNull (m !! "doctor_names")))%string;
                   ("Document Type: "
                      ++ str repr (default (JString "N/A")
                                     (rd !! "document_type")))%string;
                   ("Summary: "
                      ++ str repr (default (JString "N/A") (rd !! "summary")))%string;
                   ("Original File: "
                      ++ str repr (default JNull (md !! "original_file_name")))%string;
                   ("File Size: "
                      ++ str repr (default JNull (md !! "file_size")))%string;
                   ("Page Count: "
                      ++ str repr (default JNull (md !! "page_count")))%string;
                   separator; header_2] ++ out2)%list;
          world := w2 |}).
Proof.
  intros Hex Hrun Hresp Hloads Hmeta.
  destruct (main_after_example_1 p
              [("Success! Document ID: "
                  ++ str repr (default JNull (m !! "id")))%string;
               ("Clinical Relevance: "
                  ++ str repr (default JNull (m !! "clinical_relevance")))%string;
               ("Doctor Names: "
                  ++ str repr (default JNull (m !! "doctor_names")))%string;
               ("Document Type: "
                  ++ str repr (default (JString "N/A")
                                 (rd !! "document_type")))%string;
               ("Summary: "
                  ++ str repr (default (JString "N/A") (rd !! "summary")))%string;
               ("Original File: "
                  ++ str repr (default JNull (md !! "original_file_name")))%string;
               ("File Size: "
                  ++ str repr (default JNull (md !! "file_size")))%string;
               ("Page Count: "
                  ++ str repr (default JNull (md !! "page_count")))%string] w1)
    as (out2 & w2 & Hmain & _); [|by exists out2, w2].
  enter_example_1 Hex Hrun.
  unfold mbind, IO_bind, lift, print, get, mret, M_ret, IO_ret. cbn.
  rewrite Hresp. cbn. rewrite Hloads. cbn. rewrite Hmeta. cbn.
  by rewrite <- !app_assoc.
Qed.
End DemoFacts.

(** ** The further statements at work *)

Lemma report_accepted (a : PostResult) : accepted (sample_env a) "scans/report.pdf".
Proof. apply (sample_accepted _ _ 204800); [reflexivity | lia]. Defined.

Lemma xray_accepted (a : PostResult) :
  accepted (demo_env a) "sample_files/chest_xray.jpg".
Proof.
  exists {| st_size := 348160; open_error := None |}.
  split; [reflexivity|]. split; [simpl; lia|reflexivity].
Defined.

Lemma timeout_reported_witness :
  fst (process_document sample_repr
         (sample_env (Failed (new_exn ConnectTimeout "Connection timed out.")))
         sample_client "scans/report.pdf" None None fresh_state)
  = Raise (new_exn RequestException "Request timed out").
Proof.
  rewrite (proj1 (timeout_reported sample_repr _ sample_client
                    "scans/report.pdf" None None fresh_state
                    (report_accepted _)
                    (new_exn ConnectTimeout "Connection timed out.")
                    eq_refl eq_refl)).
  reflexivity.
Defined.

Lemma connection_error_reported_witness :
  fst (process_document sample_repr
         (sample_env (Failed (new_exn SSLError "certificate verify failed")))
         sample_client "scans/report.pdf" None None fresh_state)
  = Raise (new_exn RequestException "Connection error").
Proof.
  rewrite (proj1 (connection_error_reported sample_repr _ sample_client
                    "scans/report.pdf" None None fresh_state
                    (report_accepted _)
                    (new_exn SSLError "certificate verify failed")
                    eq_refl eq_refl eq_refl)).
  reflexivity.
Defined.

Lemma other_transport_error_propagates_witness :
  fst (process_document sample_repr
         (sample_env (Failed (new_exn TooManyRedirects "Exceeded 30 redirects.")))
         sample_client "scans/report.pdf" None None fresh_state)
  = Raise (new_exn TooManyRedirects "Exceeded 30 redirects.").
Proof.
  rewrite (proj1 (other_transport_error_propagates sample_repr _ sample_client
                    "scans/report.pdf" None None fresh_state
                    (report_accepted _)
                    (new_exn TooManyRedirects "Exceeded 30 redirects.")
                    eq_refl eq_refl eq_refl eq_refl)).
  reflexivity.
Defined.

Lemma ok_with_undecodable_body_witness :
  fst (process_document sample_repr
         (sample_env (answer 200 "OK" (NotJson "Expecting value")))
         sample_client "scans/report.pdf" None None fresh_state)
  = Raise (new_exn RequestException "Invalid JSON response").
Proof.
  unfold answer.
  rewrite (proj1 (ok_with_undecodable_body sample_repr _ sample_client
                    "scans/report.pdf" None None fresh_state
                    (report_accepted _)
                    (Response.mk 200 "OK" sample_url (NotJson "Expecting value"))
                    "Expecting value" eq_refl eq_refl eq_refl)).
  reflexivity.
Defined.

Lemma non_object_error_body_witness :
  fst (process_document sample_repr
         (sample_env (answer 400 "Bad Request" (Json (JArray []))))
         sample_client "scans/report.pdf" None None fresh_state)
  = Raise (new_exn AttributeError "'list' object has no attribute 'get'").
Proof.
  unfold answer.
  rewrite (proj1 (non_object_error_body sample_repr _ sample_client
                    "scans/report.pdf" None None fresh_state
                    (report_accepted _)
                    (Response.mk 400 "Bad Request" sample_url (Json (JArray [])))
                    (JArray []) eq_refl (or_introl eq_refl) eq_refl eq_refl)).
  reflexivity.
Defined.

Lemma unlisted_error_status_witness :
  ∃ e, fst (process_document sample_repr
              (sample_env (answer 404 "Not Found" (NotJson "Expecting value")))
              sample_client "scans/report.pdf" None None fresh_state)
       = Raise e
       ∧ ApiError.kind_of e = Some (ApiError.HttpError 404).
Proof.
  destruct (unlisted_error_status sample_repr _ sample_client
              "scans/report.pdf" None None fresh_state
              (report_accepted _)
              (Response.mk 404 "Not Found" sample_url (NotJson "Expecting value"))
              eq_refl) as (e & Hrun & _ & _ & Hkind).
  - rewrite !not_elem_of_cons. repeat split; try discriminate.
    apply not_elem_of_nil.
  - simpl. lia.
  - exists e. unfold answer. rewrite Hrun. by split.
Defined.

Lemma returns_only_for_witness :
  ∃ e, fst (process_document sample_repr
              (sample_env (answer 503 "Service Unavailable" (Json JNull)))
              sample_client "scans/report.pdf" None None fresh_state)
       = Raise e.
Proof.
  destruct (proj2 (returns_only_for sample_repr _ sample_client
                     "scans/report.pdf" None None fresh_state
                     (report_accepted _)
                     (Response.mk 503 "Service Unavailable" sample_url (Json JNull))
                     eq_refl)) as [e Hrun].
  - simpl. lia.
  - exists e. unfold answer. by rewrite Hrun.
Defined.

Lemma form_fields_witness :
  Request.data (upload_request sample_client "scans/report.pdf"
                  (Some "") (Some "Extract findings") 0) !! "text" = None
  ∧ Request.data (upload_request sample_client "scans/report.pdf"
                    (Some "") (Some "Extract findings") 0) !! "system_prompt"
    = Some "Extract findings".
Proof.
  destruct (form_fields sample_repr
              (sample_env (answer 200 "OK" (Json sample_result)))
              sample_client "scans/report.pdf" (Some "")
              (Some "Extract findings") fresh_state (report_accepted _))
    as (_ & Ht & Hp & _).
  split; [exact Ht | exact Hp].
Defined.

Lemma filename_is_last_component_witness :
  ∃ fname dir,
    Request.files (upload_request sample_client "scans/report.pdf" None None 0)
      !! "file" = Some (fname, 0%nat)
    ∧ "scans/report.pdf" = dir ++ fname
    ∧ rfind "/" fname = -1.
Proof.
  destruct (filename_is_last_component sample_repr
              (sample_env (answer 200 "OK" (Json sample_result)))
              sample_client "scans/report.pdf" None None fresh_state
              (report_accepted _))
    as (fname & dir & _ & Hf & Hp & _ & Hn).
  by exists fname, dir.
Defined.

Lemma outcome_ignores_history_witness :
  fst (process_document sample_repr
         (sample_env (answer 200 "OK" (Json sample_result)))
         sample_client "scans/report.pdf" None None fresh_state)
  = fst (process_document sample_repr
           (sample_env (answer 200 "OK" (Json sample_result)))
           sample_client "scans/report.pdf" None None
           (after_upload sample_client "scans/limit.pdf" None None fresh_state)).
Proof.
  apply (outcome_ignores_history sample_repr
           (sample_env (answer 200 "OK" (Json sample_result)))
           sample_client "scans/report.pdf" None None).
  reflexivity.
Defined.

Lemma main_without_samples_witness :
  List.length (stdout (snd (main sample_repr sample_loads
                              (sample_env (answer 200 "OK" (Json sample_result)))
                              fresh_process))) = 7%nat
  ∧ world (snd (main sample_repr sample_loads
                  (sample_env (answer 200 "OK" (Json sample_result)))
                  fresh_process)) = fresh_state.
Proof.
  rewrite (main_without_samples sample_repr sample_loads
             (sample_env (answer 200 "OK" (Json sample_result)))
             fresh_process eq_refl eq_refl).
  by split.
Defined.

Lemma main_result_not_a_dict_witness :
  ∃ out2,
    stdout (snd (main sample_repr sample_loads
                   (demo_env (answer 202 "Accepted" (Json sample_result)))
                   fresh_process))
    = (["=== Example 1: Processing Medical Image ===";
       "Error processing document: 'NoneType' object has no attribute 'get'";
       separator;
       "=== Example 2: Processing PDF Document ==="] ++ out2)%list.
Proof.
  destruct (main_result_not_a_dict sample_repr sample_loads
              (demo_env (answer 202 "Accepted" (Json sample_result)))
              fresh_process JNull
              (after_upload (__init__ API_KEY None) "sample_files/chest_xray.jpg"
                 (Some "Chest X-ray examination")
                 (Some "Extract key clinical findings and abnormalities")
                 fresh_state)
              eq_refl ltac:(vm_compute; reflexivity) eq_refl)
    as (out2 & w2 & Hmain).
  exists out2. rewrite Hmain. reflexivity.
Defined.

Lemma main_response_not_a_string_witness :
  ∃ out2,
    stdout (snd (main sample_repr sample_loads
                   (demo_env (answer 200 "OK"
                                (Json (JObject {[ "response" := JInt 3 ]}))))
                   fresh_process))
    = (["=== Example 1: Processing Medical Image ===";
       "Success! Document ID: None";
       "Clinical Relevance: None";
       "Doctor Names: None";
       "Error processing document: the JSON object must be str, bytes or bytearray, not int";
       separator;
       "=== Example 2: Processing PDF Document ==="] ++ out2)%list.
Proof.
  destruct (main_response_not_a_string sample_repr sample_loads
              (demo_env (answer 200 "OK"
                           (Json (JObject {[ "response" := JInt 3 ]}))))
              fresh_process {[ "response" := JInt 3 ]} (JInt 3)
              (after_upload (__init__ API_KEY None) "sample_files/chest_xray.jpg"
                 (Some "Chest X-ray examination")
                 (Some "Extract key clinical findings and abnormalities")
                 fresh_state)
              eq_refl ltac:(vm_compute; reflexivity) eq_refl
              ltac:(intros s; discriminate))
    as (out2 & w2 & Hmain).
  exists out2. rewrite Hmain. reflexivity.
Defined.

Lemma main_prints_result_witness :
  ∃ out2,
    stdout (snd (main sample_repr sample_loads
                   (demo_env (answer 200 "OK"
                                (Json (JObject {[ "id" := JInt 17 ]}))))
                   fresh_process))
    = (["=== Example 1: Processing Medical Image ===";
       "Success! Document ID: 17";
       "Clinical Relevance: None";
       "Doctor Names: None";
       "Document Type: N/A";
       "Summary: N/A";
       "Original File: None";
       "File Size: None";
       "Page Count: None";
       separator;
       "=== Example 2: Processing PDF Document ==="] ++ out2)%list.
Proof.
  destruct (main_prints_result sample_repr sample_loads
              (demo_env (answer 200 "OK" (Json (JObject {[ "id" := JInt 17 ]}))))
              fresh_process {[ "id" := JInt 17 ]} ∅ ∅ "{}"
              (after_upload (__init__ API_KEY None) "sample_files/chest_xray.jpg"
                 (Some "Chest X-ray examination")
                 (Some "Extract key clinical findings and abnormalities")
                 fresh_state)
              eq_refl ltac:(vm_compute; reflexivity) eq_refl eq_refl eq_refl)
    as (out2 & w2 & Hmain).
  exists out2. rewrite Hmain. reflexivity.
Defined.

Lemma startswith_append (p x : string) : startswith (p ++ x) p = true.
Proof.
  unfold startswith. induction p as [|a p IH].
  - rewrite append_nil_l. by destruct x.
  - rewrite append_cons. cbn [String.prefix].
    destruct (Ascii.ascii_dec a a); [exact IH|done].
Qed.

(** * The demo on a standard output that may refuse lines *)

Section CheckedDemo.
Variable repr : json → string.
Variable json_loads : string → body.
Variable env : Env.
Variable write_error : string → option demo_exn.

Local Abbreviation client := (__init__ API_KEY None).
Local Abbreviation xray := "sample_files/chest_xray.jpg".
Local Abbreviation xray_text := (Some "Chest X-ray examination").
Local Abbreviation xray_prompt :=
  (Some "Extract key clinical findings and abnormalities").
Local Abbreviation header_1 := "=== Example 1: Processing Medical Image ===".
Local Abbreviation header_2 := "=== Example 2: Processing PDF Document ===".
Local Abbreviation pr := (print_checked write_error).
Local Abbreviation report :=
  (fun e => print_checked write_error
              ("Error processing document: " ++ demo_str e)).

Lemma quiet_print_checked (line : string) : quiet (pr line).
Proof.
  unfold print_checked.
  destruct (write_error line); [apply quiet_die|apply quiet_print].
Qed.

Lemma print_checked_died (line : string) (p p' : Process) (e : demo_exn) :
  pr line p = (Died e, p') → write_error line = Some e ∧ p' = p.
Proof.
  unfold print_checked. destruct (write_error line) as [e0|]; [|done].
  by intros [= -> ->].
Qed.

Lemma print_checked_done (line : string) (p : Process) :
  write_error line = None →
  pr line p
  = (Done (), {| stdout := (stdout p ++ [line])%list; world := world p |}).
Proof. intros H. unfold print_checked. by rewrite H. Qed.

(** A [try] statement of [main] dies only in the [print] of its handler. *)
Lemma try_checked_died (body : IO unit) (p p' : Process) (e' : demo_exn) :
  try_except_Exception body report p = (Died e', p') →
  ∃ e, write_error ("Error processing document: " ++ demo_str e) = Some e'.
Proof.
  unfold try_except_Exception. destruct (body p) as [[[]|e] p1]; [done|].
  rewrite is_Exception_always. intros H.
  exists e. by apply print_checked_died in H as [H _].
Qed.

Lemma try_checked_total (body : IO unit) (p : Process) :
  (∀ line, write_error line = None) →
  ∃ p', try_except_Exception body report p = (Done (), p').
Proof.
  intros Hok. unfold try_except_Exception.
  destruct (body p) as [[[]|e] p1]; [by eexists|].
  rewrite is_Exception_always. rewrite print_checked_done by apply Hok.
  by eexists.
Qed.

(** Whatever way a [try] statement of [main] ends, it has only added to
    the output. *)
Lemma try_checked_appends (c : MeditrailOCRClient) (path : string)
    (t sp : option string) (rest : json → IO unit) (notfound : IO unit)
    (p : Process) :
  (∀ v, quiet (rest v)) →
  quiet notfound →
  ∃ o out w,
    try_except_Exception
      (if os_path_exists env path
       then lift (process_document repr env c path t sp) ≫= rest
       else notfound)
      report p
    = (o, {| stdout := (stdout p ++ out)%list; world := w |}).
Proof.
  intros Hrest Hnot. unfold try_except_Exception.
  assert (∀ e q out w,
            q = {| stdout := (stdout p ++ out)%list; world := w |} →
            ∃ o out' w',
              report e q
              = (o, {| stdout := (stdout p ++ out')%list; world := w' |}))
    as Hreport.
  { intros e q out w ->.
    destruct (quiet_print_checked ("Error processing document: " ++ demo_str e)
                {| stdout := (stdout p ++ out)%list; world := w |})
      as [out' Hout'].
    destruct (pr _ _) as [o q']. cbn in Hout'. subst q'.
    exists o, (out ++ out')%list, w. by rewrite app_assoc. }
  destruct (os_path_exists env path).
  - rewrite io_bind_run. unfold lift at 1.
    destruct (process_document repr env c path t sp (world p)) as [[v|e] w].
    + destruct (Hrest v {| stdout := stdout p; world := w |}) as [out Hout].
      destruct (rest v _) as [[[]|e] p']; cbn in Hout; subst p'.
      * by exists (Done ()), out, w.
      * rewrite is_Exception_always. by apply (Hreport e _ out w).
    + rewrite is_Exception_always. apply (Hreport (PyExn e) _ [] w).
      by rewrite app_nil_r.
  - destruct (Hnot p) as [out Hout].
    destruct (notfound p) as [[[]|e] p']; cbn in Hout; subst p'.
    + by exists (Done ()), out, (world p).
    + rewrite is_Exception_always. by apply (Hreport e _ out (world p)).
Qed.

Ltac solve_quiet_checked :=
  repeat first
    [ apply quiet_print_checked
    | apply quiet_mret
    | apply quiet_die
    | apply quiet_loads
    | apply quiet_lift; apply stateless_get
    | apply quiet_bind; [|intros ?] ].

Lemma main_example_2_checked_appends (p : Process) :
  ∃ o out w,
    main_example_2_with repr json_loads env pr client p
    = (o, {| stdout := (stdout p ++ out)%list; world := w |}).
Proof.
  unfold main_example_2_with. cbv zeta.
  apply try_checked_appends; [intros ?|]; solve_quiet_checked.
Qed.


End CheckedDemo.

(** ** The demo on an ASCII standard output *)


